(** * py_star.manager: a shallow embedding of the Asterisk Manager client

    The development follows [src/py_star/manager.py].  Python text is
    modelled by [string], one character per code point (code points
    below 256); dictionaries whose iteration order is irrelevant are
    [gmap]s, the request dictionary of [send_action] is an ordered
    association list living in an explicit store of dictionary
    objects, queues are lists (head = next item to be dequeued), and a
    blocking [Queue.get] on an empty queue is the outcome [Blocked]. *)

From Stdlib Require Import ZArith NArith Ascii String DecimalString HexadecimalString HexadecimalN Lia.
From stdpp Require Import gmap strings list.

Open Scope string_scope.
Open Scope list_scope.

(** ** Python string primitives used by the module *)

Module PyStr.

Definition CR : ascii := "013"%char.
Definition LF : ascii := "010"%char.

(** [unicode.isspace] restricted to code points below 256. *)
Definition isspace (c : ascii) : bool :=
  let n := N_of_ascii c in
  ((9 <=? n) && (n <=? 13) || (28 <=? n) && (n <=? 32)
   || (n =? 133) || (n =? 160))%N.

(** [s.startswith(p)] *)
Definition startswith (s p : string) : bool := String.prefix p s.

(** [s.endswith(suffix)] *)
Fixpoint endswith (s suffix : string) : bool :=
  if String.eqb s suffix then true
  else match s with
       | EmptyString => false
       | String _ s' => endswith s' suffix
       end.

(** [needle in hay] *)
Fixpoint contains (needle hay : string) : bool :=
  if String.prefix needle hay then true
  else match hay with
       | EmptyString => false
       | String _ hay' => contains needle hay'
       end.

(** [s.split(c)] for a one-character separator. *)
Fixpoint split (c : ascii) (s : string) : list string :=
  match s with
  | EmptyString => [EmptyString]
  | String a s' =>
      if Ascii.eqb a c then EmptyString :: split c s'
      else match split c s' with
           | x :: r => String a x :: r
           | [] => [String a EmptyString]
           end
  end.

(** [s.split(c, 1)] for a one-character separator. *)
Fixpoint split1 (c : ascii) (s : string) : list string :=
  match s with
  | EmptyString => [EmptyString]
  | String a s' =>
      if Ascii.eqb a c then [EmptyString; s']
      else match split1 c s' with
           | x :: r => String a x :: r
           | [] => [String a EmptyString]
           end
  end.

Fixpoint lstrip (s : string) : string :=
  match s with
  | EmptyString => EmptyString
  | String a s' => if isspace a then lstrip s' else s
  end.

Fixpoint rstrip (s : string) : string :=
  match s with
  | EmptyString => EmptyString
  | String a s' =>
      let r := rstrip s' in
      if isspace a && String.eqb r EmptyString then EmptyString
      else String a r
  end.

(** [s.strip()] *)
Definition strip (s : string) : string := rstrip (lstrip s).

(** [''.join(l)] *)
Definition join (l : list string) : string := String.concat "" l.

(** [sep.join(l)] *)
Definition join_with (sep : string) (l : list string) : string :=
  String.concat sep l.

(** [str(n)] and [hex] digits of a non-negative integer. *)
Definition str_of_N (n : N) : string :=
  DecimalString.NilZero.string_of_uint (N.to_uint n).

Definition hex_of_N (n : N) : string :=
  HexadecimalString.NilZero.string_of_uint (N.to_hex_uint n).

Fixpoint fill (c : ascii) (n : nat) : string :=
  match n with
  | O => EmptyString
  | S n' => String c (fill c n')
  end.

(** right-justify [s] in a field of [width], padding with [c] *)
Definition rjust (c : ascii) (width : nat) (s : string) : string :=
  fill c (width - String.length s) +:+ s.

(** The text before the first [c] of [s] (all of [s] without one),
    and the text after it (empty without one). *)
Fixpoint before (c : ascii) (s : string) : string :=
  match s with
  | EmptyString => EmptyString
  | String a s' => if Ascii.eqb a c then EmptyString else String a (before c s')
  end.

Fixpoint after (c : ascii) (s : string) : string :=
  match s with
  | EmptyString => EmptyString
  | String a s' => if Ascii.eqb a c then s' else after c s'
  end.

End PyStr.

Import PyStr.

(** The module constant [EOL = '\r\n']. *)
Definition EOL : string := String CR (String LF EmptyString).

Definition END_COMMAND : string := "--END COMMAND--".

(** ** ManagerMessage *)

Record ManagerMessage := mkManagerMessage {
  response : list string;
  data : string;
  headers : gmap string string;
  multiheaders : gmap string (list string)
}.

(** [_Message.has_header] *)
Definition has_header (h : gmap string string) (hname : string) : bool :=
  bool_decide (is_Some (h !! hname)).

(** The [for n, line in enumerate(response)] loop of
    [ManagerMessage.parse].  The argument is [response[n:]]; the result
    is the two dictionaries and the list [data] at the loop's exit. *)
Fixpoint parse_loop (rest : list string)
    (h : gmap string string) (mh : gmap string (list string))
    : gmap string string * gmap string (list string) * list string :=
  match rest with
  | [] => (h, mh, [])
  | line :: rest' =>
      if negb (endswith line EOL) then (h, mh, line :: rest')
      else
        match strip <$> split1 ":" line with
        | [k; v] =>
            (* multiheaders[k] is created empty when absent, then v is
               appended to it *)
            parse_loop rest' (<[k := v]> h)
                       (<[k := default [] (mh !! k) ++ [v]]> mh)
        | _ => (* ValueError on unpacking *) (h, mh, line :: rest')
        end
  end.

(** [ManagerMessage.parse(self, response)] *)
Definition parse (self : ManagerMessage) (resp : list string) : ManagerMessage :=
  let '(h, mh, d) := parse_loop resp (headers self) (multiheaders self) in
  {| response := response self; data := join d;
     headers := h; multiheaders := mh |}.

(** [ManagerMessage.__init__(self, response)] *)
Definition ManagerMessage_init (resp : list string) : ManagerMessage :=
  let self0 := {| response := resp; data := ""; headers := ∅; multiheaders := ∅ |} in
  let self := parse self0 resp in
  if negb (has_header (headers self) "Event")
     && negb (has_header (headers self) "Response") then
    if has_header (headers self) "ActionID" then
      {| response := response self; data := data self;
         headers := <["Response" := "Generated Header"]> (headers self);
         multiheaders := <["Response" := ["Generated Header"]]> (multiheaders self) |}
    else if contains END_COMMAND (data self) then
      {| response := response self; data := data self;
         headers := <["Event" := "NoClue"]> (headers self);
         multiheaders := <["Event" := ["NoClue"]]> (multiheaders self) |}
    else
      {| response := response self; data := data self;
         headers := <["Response" := "Generated Header"]> (headers self);
         multiheaders := <["Response" := ["Generated Header"]]> (multiheaders self) |}
  else self.

(** ** Exceptions, queues and events *)

Inductive exn :=
| ManagerException (msg : string)
| ManagerSocketException (errno : Z) (reason : string)
| ManagerAuthException (msg : string)
| BuiltinError (kind : string).

(** [isinstance(e, ManagerSocketException)]: the class has no subclass. *)
Definition is_ManagerSocketException (e : exn) : bool :=
  match e with ManagerSocketException _ _ => true | _ => false end.

(** [isinstance(e, ManagerException)]: the three classes of the module. *)
Definition is_ManagerException (e : exn) : bool :=
  match e with BuiltinError _ => false | _ => true end.

(** What a call does for its caller: it returns, raises, or waits on a
    queue that is empty. *)
Inductive outcome (A : Type) :=
| Return (a : A)
| Raise (e : exn)
| Blocked.
Arguments Return {A} a.
Arguments Raise {A} e.
Arguments Blocked {A}.

(** A queue cell: the session's [_sentinel] object or a real item. *)
Inductive item (A : Type) :=
| sentinel
| obj (a : A).
Arguments sentinel {A}.
Arguments obj {A} a.

Record Event := mkEvent {
  message : ManagerMessage;
  ev_data : string;
  ev_headers : gmap string string;
  ev_multiheaders : gmap string (list string);
  name : string
}.

(** [Event.__init__(self, message)] *)
Definition Event_init (msg : ManagerMessage) : exn + Event :=
  if negb (has_header (headers msg) "Event") then
    inl (ManagerException "Trying to create event from non event message")
  else
    inr {| message := msg; ev_data := data msg; ev_headers := headers msg;
           ev_multiheaders := multiheaders msg;
           name := default "" (headers msg !! "Event") |}.

(** ** The session *)

(** What iterating the socket file delivers next: a decoded line, or
    [socket.error]; the end of the list is the end of the stream. *)
Inductive sock_read :=
| RLine (line : string)
| RError.

Record SocketFile := mkSocketFile {
  incoming : list sock_read;
  written : list string;
  closed : bool;
  write_error : option (Z * string)
}.

(** Handlers are function objects; the model names them. *)
Definition handler := nat.

Record Manager := mkManager {
  _sock : option SocketFile;
  title : option string;
  version : option string;
  _connected : bool;
  _running : bool;
  hostname : string;
  pid : N;
  _message_queue : list (item (list string));
  _response_queue : list (item ManagerMessage);
  _event_queue : list (item Event);
  errors_in_threads : list string;
  _event_callbacks : gmap string (list handler);
  _response_waiters : list Z;
  _seq : N;
  threads_started : bool
}.

(** [Manager.__init__] *)
Definition Manager_init (host : string) (p : N) : Manager :=
  {| _sock := None; title := None; version := None;
     _connected := false; _running := false; hostname := host; pid := p;
     _message_queue := []; _response_queue := []; _event_queue := [];
     errors_in_threads := []; _event_callbacks := ∅;
     _response_waiters := []; _seq := 0%N; threads_started := false |}.

Definition set_sock (x : option SocketFile) (m : Manager) : Manager :=
  mkManager x (title m) (version m) (_connected m) (_running m) (hostname m)
    (pid m) (_message_queue m) (_response_queue m) (_event_queue m)
    (errors_in_threads m) (_event_callbacks m) (_response_waiters m) (_seq m)
    (threads_started m).

Definition set_greeting (t v : option string) (m : Manager) : Manager :=
  mkManager (_sock m) t v (_connected m) (_running m) (hostname m)
    (pid m) (_message_queue m) (_response_queue m) (_event_queue m)
    (errors_in_threads m) (_event_callbacks m) (_response_waiters m) (_seq m)
    (threads_started m).

Definition set_connected (x : bool) (m : Manager) : Manager :=
  mkManager (_sock m) (title m) (version m) x (_running m) (hostname m)
    (pid m) (_message_queue m) (_response_queue m) (_event_queue m)
    (errors_in_threads m) (_event_callbacks m) (_response_waiters m) (_seq m)
    (threads_started m).

Definition set_running (x : bool) (m : Manager) : Manager :=
  mkManager (_sock m) (title m) (version m) (_connected m) x (hostname m)
    (pid m) (_message_queue m) (_response_queue m) (_event_queue m)
    (errors_in_threads m) (_event_callbacks m) (_response_waiters m) (_seq m)
    (threads_started m).

Definition set_message_queue (x : list (item (list string))) (m : Manager) : Manager :=
  mkManager (_sock m) (title m) (version m) (_connected m) (_running m)
    (hostname m) (pid m) x (_response_queue m) (_event_queue m)
    (errors_in_threads m) (_event_callbacks m) (_response_waiters m) (_seq m)
    (threads_started m).

Definition set_response_queue (x : list (item ManagerMessage)) (m : Manager) : Manager :=
  mkManager (_sock m) (title m) (version m) (_connected m) (_running m)
    (hostname m) (pid m) (_message_queue m) x (_event_queue m)
    (errors_in_threads m) (_event_callbacks m) (_response_waiters m) (_seq m)
    (threads_started m).

Definition set_event_queue (x : list (item Event)) (m : Manager) : Manager :=
  mkManager (_sock m) (title m) (version m) (_connected m) (_running m)
    (hostname m) (pid m) (_message_queue m) (_response_queue m) x
    (errors_in_threads m) (_event_callbacks m) (_response_waiters m) (_seq m)
    (threads_started m).

Definition set_errors (x : list string) (m : Manager) : Manager :=
  mkManager (_sock m) (title m) (version m) (_connected m) (_running m)
    (hostname m) (pid m) (_message_queue m) (_response_queue m)
    (_event_queue m) x (_event_callbacks m) (_response_waiters m) (_seq m)
    (threads_started m).

Definition set_event_callbacks (x : gmap string (list handler)) (m : Manager) : Manager :=
  mkManager (_sock m) (title m) (version m) (_connected m) (_running m)
    (hostname m) (pid m) (_message_queue m) (_response_queue m)
    (_event_queue m) (errors_in_threads m) x (_response_waiters m) (_seq m)
    (threads_started m).

Definition set_response_waiters (x : list Z) (m : Manager) : Manager :=
  mkManager (_sock m) (title m) (version m) (_connected m) (_running m)
    (hostname m) (pid m) (_message_queue m) (_response_queue m)
    (_event_queue m) (errors_in_threads m) (_event_callbacks m) x (_seq m)
    (threads_started m).

Definition set_seq (x : N) (m : Manager) : Manager :=
  mkManager (_sock m) (title m) (version m) (_connected m) (_running m)
    (hostname m) (pid m) (_message_queue m) (_response_queue m)
    (_event_queue m) (errors_in_threads m) (_event_callbacks m)
    (_response_waiters m) x (threads_started m).

Definition set_threads_started (x : bool) (m : Manager) : Manager :=
  mkManager (_sock m) (title m) (version m) (_connected m) (_running m)
    (hostname m) (pid m) (_message_queue m) (_response_queue m)
    (_event_queue m) (errors_in_threads m) (_event_callbacks m)
    (_response_waiters m) (_seq m) x.

(** [Queue.put] on the session's four queues. *)
Definition put_message (x : item (list string)) (m : Manager) : Manager :=
  set_message_queue (_message_queue m ++ [x]) m.
Definition put_response (x : item ManagerMessage) (m : Manager) : Manager :=
  set_response_queue (_response_queue m ++ [x]) m.
Definition put_event (x : item Event) (m : Manager) : Manager :=
  set_event_queue (_event_queue m ++ [x]) m.
Definition put_error (msg : string) (m : Manager) : Manager :=
  set_errors (errors_in_threads m ++ [msg]) m.

Definition is_connected (self : Manager) : bool := _connected self.
Definition is_running (self : Manager) : bool := _running self.

(** [Manager.next_seq]: the value returned is the counter before the
    increment of the [finally] clause. *)
Definition next_seq (self : Manager) : Manager * N :=
  (set_seq (_seq self + 1)%N self, _seq self).

(** ** send_action *)

(** A request field is a scalar (shown by [%s]) or a list of them. *)
Inductive value :=
| VStr (s : string)
| VList (l : list string).

(** A dictionary in insertion order, and the store of the dictionary
    objects of the program: a reference is an index into the store, so
    that two names for one dictionary see each other's updates. *)
Abbreviation dict := (list (string * value)).
Abbreviation store := (list dict).

(** [k in d] *)
Definition dict_has (k : string) (d : dict) : bool := bool_decide (k ∈ d.*1).

(** [d[k] = v]: an existing key keeps its place. *)
Fixpoint dict_set (k : string) (v : value) (d : dict) : dict :=
  match d with
  | [] => [(k, v)]
  | (k', v') :: d' =>
      if String.eqb k k' then (k, v) :: d' else (k', v') :: dict_set k v d'
  end.

(** [d.get(k)] *)
Fixpoint dict_get (k : string) (d : dict) : option value :=
  match d with
  | [] => None
  | (k', v') :: d' => if String.eqb k k' then Some v' else dict_get k d'
  end.

(** [d.update(kwargs)] *)
Definition dict_update (d kwargs : dict) : dict :=
  foldl (λ acc kv, dict_set kv.1 kv.2 acc) d kwargs.

(** The dictionary a reference denotes. *)
Definition deref (st : store) (a : nat) : dict := default [] (st !! a).

(** ['%s-%04s-%08x' % (hostname, pid, seq)]: the flag [0] has no effect
    on [%s], whose field is padded with spaces. *)
Definition format_ActionID (host : string) (p seq : N) : string :=
  host +:+ "-" +:+ rjust " " 4 (str_of_N p) +:+ "-" +:+ rjust "0" 8 (hex_of_N seq).

(** The [for key, value in cdict.items()] loop: the list [clist]. *)
Definition command_lines (d : dict) : list string :=
  flat_map (λ kv,
    match kv.2 with
    | VList l => (λ it, kv.1 +:+ ": " +:+ it) <$> l
    | VStr s => [kv.1 +:+ ": " +:+ s]
    end) d.

(** [self._sock.write(...)] followed by [flush()]. *)
Definition sock_write (command : string) (sk : SocketFile) : exn + SocketFile :=
  if closed sk then inl (BuiltinError "ValueError")
  else match write_error sk with
       | Some (errno, reason) => inl (ManagerSocketException errno reason)
       | None => inr (mkSocketFile (incoming sk) (written sk ++ [command])
                                   (closed sk) (write_error sk))
       end.

(** [cdict = cdict or {}]: [None] and the empty dictionary are falsy,
    and a new dictionary object then stands for them. *)
Definition cdict_or_new (st : store) (cdict : option nat) : store * nat :=
  match cdict with
  | Some a => if bool_decide (deref st a = []) then (st ++ [[]], length st)
              else (st, a)
  | None => (st ++ [[]], length st)
  end.

(** [send_action] up to and including
    [self._response_waiters.insert(0, 1)].  [cdict] is [None] or a
    reference to the caller's dictionary; [kwargs] is the fresh
    dictionary of keyword arguments. *)
Definition send_action_enter (self : Manager) (st : store)
    (cdict : option nat) (kwargs : dict) : Manager * store * outcome unit :=
  let '(st, a) := cdict_or_new st cdict in
  if negb (is_connected self) then (self, st, Raise (ManagerException "Not connected"))
  else
    let st := <[a := dict_update (deref st a) kwargs]> st in
    let '(self, st) :=
      if negb (dict_has "ActionID" (deref st a)) then
        let '(self', n) := next_seq self in
        (self', <[a := dict_set "ActionID"
                          (VStr (format_ActionID (hostname self) (pid self) n))
                          (deref st a)]> st)
      else (self, st) in
    let clist := command_lines (deref st a) ++ [EOL] in
    let command := join_with EOL clist in
    match _sock self with
    | None => (self, st, Raise (BuiltinError "AttributeError"))
    | Some sk =>
        match sock_write command sk with
        | inl e => (self, st, Raise e)
        | inr sk' =>
            let self := set_sock (Some sk') self in
            (set_response_waiters (1%Z :: _response_waiters self) self, st, Return ())
        end
    end.

(** The rest of [send_action]: [self._response_queue.get()], then
    [self._response_waiters.pop(0)] and the sentinel test. *)
Definition send_action_wait (self : Manager) : Manager * outcome ManagerMessage :=
  match _response_queue self with
  | [] => (self, Blocked)
  | r :: q =>
      let self := set_response_queue q self in
      let self := set_response_waiters (tail (_response_waiters self)) self in
      match r with
      | sentinel => (self, Raise (ManagerSocketException 0 "Connection Terminated"))
      | obj msg => (self, Return msg)
      end
  end.

(** [Manager.send_action(self, cdict, **kwargs)] *)
Definition send_action (self : Manager) (st : store)
    (cdict : option nat) (kwargs : dict)
    : Manager * store * outcome ManagerMessage :=
  match send_action_enter self st cdict kwargs with
  | (self, st, Return _) =>
      let '(self, r) := send_action_wait self in (self, st, r)
  | (self, st, Raise e) => (self, st, Raise e)
  | (self, st, Blocked) => (self, st, Blocked)
  end.

(** ** _receive_data *)

(** The locals of [_receive_data] that survive one pass of its [while]
    loop, and [lines], reset at each pass. *)
Record locals := mkLocals {
  lines : list string;
  multiline : bool;
  wait_for_marker : bool
}.

Inductive for_exit := ForBreak | ForElse | ForError.

(** Truth value of [self.title]: [None] and [''] are falsy. *)
Definition truthy (o : option string) : bool :=
  match o with Some (String _ _) => true | _ => false end.

(** The part of the loop body from [lines.append(line)] to the last
    update of the two flags. *)
Definition accumulate (line : string) (loc : locals) : locals :=
  let ls := lines loc ++ [line] in
  let ml := if negb (endswith line EOL) || negb (contains ":" line)
            then true else multiline loc in
  let wm := if negb ml && startswith line "Response"
               && String.eqb (strip (nth 1 (split1 ":" line) "")) "Follows"
            then true else wait_for_marker loc in
  let '(ml, wm) := if ml && startswith line END_COMMAND
                   then (false, false) else (ml, wm) in
  mkLocals ls ml wm.

(** The [for line in self._sock] loop.  [stream] is what the socket
    file still holds; the result carries what it holds at the exit. *)
Fixpoint for_line_in_sock (stream : list sock_read) (self : Manager) (loc : locals)
    : for_exit * list sock_read * Manager * locals :=
  match stream with
  | [] => (ForElse, [], self, loc)
  | RError :: stream' => (ForError, stream', self, loc)
  | RLine line :: stream' =>
      if negb (truthy (title self)) && contains "/" line && negb (contains ":" line)
      then
        let self := set_greeting (Some (strip (nth 0 (split "/" line) "")))
                                 (Some (strip (nth 1 (split "/" line) ""))) self in
        (ForBreak, stream', self,
         mkLocals (lines loc ++ ["Response: Generated Header" +:+ EOL; line])
                  (multiline loc) (wait_for_marker loc))
      else if String.eqb line EOL && negb (wait_for_marker loc) then
        let loc := mkLocals (lines loc) false (wait_for_marker loc) in
        if negb (bool_decide (lines loc = [])) then (ForBreak, stream', self, loc)
        else if negb (is_connected self) then (ForBreak, stream', self, loc)
        else for_line_in_sock stream' self loc
      else
        let loc := accumulate line loc in
        if negb (is_connected self) then (ForBreak, stream', self, loc)
        else for_line_in_sock stream' self loc
  end.

Definition sock_close (sk : SocketFile) : SocketFile :=
  mkSocketFile (incoming sk) (written sk) true (write_error sk).

(** One pass of the body of [while self.is_running() and
    self.is_connected()]; [None] when the session has no socket file
    (the iteration raises and the thread ends). *)
Definition _receive_data_pass (self : Manager) (loc : locals)
    : option (Manager * locals) :=
  match _sock self with
  | None => None
  | Some sk =>
      let '(ex, rest, self, loc) :=
        for_line_in_sock (incoming sk) self
          (mkLocals [] (multiline loc) (wait_for_marker loc)) in
      let sk := mkSocketFile rest (written sk) (closed sk) (write_error sk) in
      let self := set_sock (Some sk) self in
      match ex with
      | ForError =>
          let self := set_sock (Some (sock_close sk)) self in
          let self := set_connected false self in
          Some (put_error "Socket error" (put_message sentinel self), loc)
      | _ =>
          let self :=
            match ex with
            | ForElse => set_connected false (set_sock (Some (sock_close sk)) self)
            | _ => self
            end in
          if negb (bool_decide (lines loc = [])) then
            if is_connected self then Some (put_message (obj (lines loc)) self, loc)
            else Some (put_error "Received lines but are not connected"
                         (put_message sentinel self), loc)
          else Some (put_error "No lines received" (put_message sentinel self), loc)
      end
  end.

(** [Manager._receive_data]: [None] when [fuel] passes do not end the
    loop. *)
Fixpoint _receive_data_loop (fuel : nat) (self : Manager) (loc : locals)
    : option Manager :=
  if negb (is_running self && is_connected self) then Some self
  else match fuel with
       | O => None
       | S fuel' =>
           match _receive_data_pass self loc with
           | None => Some self
           | Some (self', loc') => _receive_data_loop fuel' self' loc'
           end
       end.

Definition _receive_data (fuel : nat) (self : Manager) : option Manager :=
  _receive_data_loop fuel self (mkLocals [] false false).

(** ** The callback registry *)

(** [Manager.register_event(self, event, function)] *)
Definition register_event (event : string) (function : handler) (self : Manager)
    : Manager :=
  let current_callbacks := default [] (_event_callbacks self !! event) in
  let current_callbacks := current_callbacks ++ [function] in
  set_event_callbacks (<[event := current_callbacks]> (_event_callbacks self)) self.

(** [list.remove(x)]: the first occurrence goes; [None] is [ValueError]. *)
Fixpoint list_remove (x : handler) (l : list handler) : option (list handler) :=
  match l with
  | [] => None
  | y :: l' => if bool_decide (x = y) then Some l'
               else cons y <$> list_remove x l'
  end.

(** [Manager.unregister_event(self, event, function)] *)
Definition unregister_event (event : string) (function : handler) (self : Manager)
    : Manager * outcome unit :=
  let current_callbacks := default [] (_event_callbacks self !! event) in
  match list_remove function current_callbacks with
  | None => (self, Raise (BuiltinError "ValueError"))
  | Some current_callbacks =>
      (set_event_callbacks (<[event := current_callbacks]> (_event_callbacks self)) self,
       Return ())
  end.

(** ** message_loop *)

(** How one pass of a loop body ends. *)
Inductive ctl :=
| Continue
| Break
| Wait
| Fail (e : exn).

(** How a loop run with fuel ends. *)
Inductive run :=
| Done
| Waiting
| Failed (e : exn)
| OutOfFuel.

(** One pass of [while self.is_running()] in [message_loop].  The
    thread that runs [_receive_data] is another actor on the same
    session. *)
Definition message_loop_body (self : Manager) : Manager * ctl :=
  match _message_queue self with
  | [] => (self, Wait)
  | got :: q =>
      let self := set_message_queue q self in
      match got with
      | sentinel =>
          let self := put_event sentinel self in
          let self := foldl (λ s waiter, put_response sentinel s) self
                            (_response_waiters self) in
          (self, Break)
      | obj group =>
          let message := ManagerMessage_init group in
          if has_header (headers message) "Event" then
            match Event_init message with
            | inr ev => (put_event (obj ev) self, Continue)
            | inl e => (self, Fail e)
            end
          else if has_header (headers message) "Response" then
            (put_response (obj message) self, Continue)
          else
            let msg := "No clue what we got" +:+ String LF (data message) in
            (put_error msg (put_response sentinel self), Continue)
      end
  end.

(** [Manager.message_loop] *)
Fixpoint message_loop (fuel : nat) (self : Manager) : Manager * run :=
  if negb (is_running self) then (self, Done)
  else match fuel with
       | O => (self, OutOfFuel)
       | S fuel' =>
           match message_loop_body self with
           | (self', Continue) => message_loop fuel' self'
           | (self', Break) => (self', Done)
           | (self', Wait) => (self', Waiting)
           | (self', Fail e) => (self', Failed e)
           end
       end.

(** ** event_dispatch *)

Section Dispatch.

(** The rest of the program, as far as handlers see and change it,
    and what calling a handler does: [callback(ev, self)] changes the
    session and the world and returns a value of which only the
    truth value is used. *)
Context {World : Type}.
Variable call : handler → Event → Manager * World → Manager * World * bool.

(** [for callback in callbacks: if callback(ev, self): break], with
    the log of the calls made and of the truth value each returned. *)
Fixpoint run_callbacks (callbacks : list handler) (ev : Event)
    (sw : Manager * World) : Manager * World * list (handler * bool) :=
  match callbacks with
  | [] => (sw, [])
  | callback :: callbacks' =>
      let '(sw', r) := call callback ev sw in
      if r then (sw', [(callback, true)])
      else let '(sw'', log) := run_callbacks callbacks' ev sw' in
           (sw'', (callback, false) :: log)
  end.

(** The list [callbacks] built for an event. *)
Definition callbacks_for (self : Manager) (ev : Event) : list handler :=
  default [] (_event_callbacks self !! name ev)
  ++ default [] (_event_callbacks self !! "*").

(** One pass of [while self.is_running()] in [event_dispatch]. *)
Definition event_dispatch_body (sw : Manager * World)
    : Manager * World * list (handler * bool) * ctl :=
  match _event_queue sw.1 with
  | [] => (sw, [], Wait)
  | ev :: q =>
      let sw := (set_event_queue q sw.1, sw.2) in
      match ev with
      | sentinel => (sw, [], Break)
      | obj ev =>
          let callbacks := callbacks_for sw.1 ev in
          let '(sw', log) := run_callbacks callbacks ev sw in
          (sw', log, Continue)
      end
  end.

(** [Manager.event_dispatch], with the log of all calls. *)
Fixpoint event_dispatch (fuel : nat) (sw : Manager * World)
    : Manager * World * list (handler * bool) * run :=
  if negb (is_running sw.1) then (sw, [], Done)
  else match fuel with
       | O => (sw, [], OutOfFuel)
       | S fuel' =>
           match event_dispatch_body sw with
           | (sw', log, Continue) =>
               let '(sw'', log', r) := event_dispatch fuel' sw' in
               (sw'', log ++ log', r)
           | (sw', log, Break) => (sw', log, Done)
           | (sw', log, Wait) => (sw', log, Waiting)
           | (sw', log, Fail e) => (sw', log, Failed e)
           end
       end.

End Dispatch.

(** ** connect *)

(** [Manager.connect] up to the start of the two threads.  [network]
    is what creating and connecting the socket gives for a host and a
    port: [socket.error] or the socket file. *)
Definition connect_enter (network : string → Z → (Z * string) + SocketFile)
    (self : Manager) (host : string) (port : Z) : Manager * outcome unit :=
  if is_connected self then
    (self, Raise (ManagerException "Already connected to manager"))
  else
    match network host port with
    | inl (errno, reason) => (self, Raise (ManagerSocketException errno reason))
    | inr sk =>
        let self := set_sock (Some sk) self in
        let self := set_connected true self in
        let self := set_running true self in
        (* a thread object starts once *)
        if threads_started self then (self, Raise (BuiltinError "RuntimeError"))
        else (set_threads_started true self, Return ())
    end.

(** The rest of [connect]: [response = self._response_queue.get()] and
    the sentinel test. *)
Definition connect_wait (self : Manager) : Manager * outcome ManagerMessage :=
  match _response_queue self with
  | [] => (self, Blocked)
  | r :: q =>
      let self := set_response_queue q self in
      match r with
      | sentinel => (self, Raise (ManagerSocketException 0 "Connection Terminated"))
      | obj msg => (self, Return msg)
      end
  end.

(** [Manager.connect(self, host, port)] *)
Definition connect (network : string → Z → (Z * string) + SocketFile)
    (self : Manager) (host : string) (port : Z) : Manager * outcome ManagerMessage :=
  match connect_enter network self host port with
  | (self, Return _) => connect_wait self
  | (self, Raise e) => (self, Raise e)
  | (self, Blocked) => (self, Blocked)
  end.

(** ** Vocabulary of the statements *)

(** A line the parser takes as a header: it ends in CRLF and has a colon. *)
Definition is_header_line (line : string) : bool :=
  endswith line EOL && contains ":" line.

(** Key and value of a header line: the text on each side of the first
    colon, stripped. *)
Definition header_of (line : string) : string * string :=
  (strip (before ":" line), strip (after ":" line)).

(** The leading header lines of a group, and what follows them. *)
Fixpoint header_lines (resp : list string) : list string :=
  match resp with
  | [] => []
  | line :: rest => if is_header_line line then line :: header_lines rest else []
  end.

Fixpoint body_lines (resp : list string) : list string :=
  match resp with
  | [] => []
  | line :: rest => if is_header_line line then body_lines rest else resp
  end.

(** The values paired with key [k], in order of appearance. *)
Definition values_of (k : string) (kvs : list (string * string)) : list string :=
  (filter (λ kv, kv.1 = k) kvs).*2.

(** The message object before [parse] runs. *)
Definition blank_message (resp : list string) : ManagerMessage :=
  {| response := resp; data := ""; headers := ∅; multiheaders := ∅ |}.

(** Where [message_loop] sends a parsed message. *)
Inductive classification :=
| IsEvent
| IsResponse
| Unclassified.

Definition classify (msg : ManagerMessage) : classification :=
  if has_header (headers msg) "Event" then IsEvent
  else if has_header (headers msg) "Response" then IsResponse
  else Unclassified.

(** A message with one synthesized header. *)
Definition with_generated (k v : string) (msg : ManagerMessage) : ManagerMessage :=
  {| response := response msg; data := data msg;
     headers := <[k := v]> (headers msg);
     multiheaders := <[k := [v]]> (multiheaders msg) |}.

(** The fields of a request once the keyword arguments are merged. *)
Definition field_set (st : store) (cdict : option nat) (kwargs : dict) : dict :=
  let '(st0, a) := cdict_or_new st cdict in dict_update (deref st0 a) kwargs.

Section Replay.
Context {World : Type}.
Variable call : handler → Event → Manager * World → Manager * World * bool.

(** The state after the handlers [hs] were called one after the
    other, and the truth value handler [h] returns in a state. *)
Fixpoint replay (hs : list handler) (ev : Event) (sw : Manager * World)
    : Manager * World :=
  match hs with
  | [] => sw
  | h :: hs' => replay hs' ev (call h ev sw).1
  end.

Definition answer (h : handler) (ev : Event) (sw : Manager * World) : bool :=
  (call h ev sw).2.

(** Every handler of [hs], called in turn from [sw], returns a falsy
    value. *)
Fixpoint all_falsy (hs : list handler) (ev : Event) (sw : Manager * World)
    : bool :=
  match hs with
  | [] => true
  | h :: hs' => negb (answer h ev sw) && all_falsy hs' ev (call h ev sw).1
  end.
End Replay.

(** The header line that announces command output. *)
Definition RESPONSE_FOLLOWS : string := "Response: Follows" +:+ EOL.

(** ** Concrete sessions *)

(** A socket file that still holds the lines [ls]. *)
Definition socket_with (ls : list string) : SocketFile :=
  mkSocketFile (RLine <$> ls) [] false None.

(** A session as [connect] leaves it, on host [pbx] as process 4242,
    with unread lines [ls], before any line was read. *)
Definition fresh_session (ls : list string) : Manager :=
  set_threads_started true
    (set_running true
       (set_connected true
          (set_sock (Some (socket_with ls)) (Manager_init "pbx" 4242)))).

(** The same session after the banner was read. *)
Definition greeted_session (ls : list string) : Manager :=
  set_greeting (Some "Asterisk Call Manager") (Some "1.1") (fresh_session ls).

(** A network that accepts every connection with an empty stream. *)
Definition open_network (host : string) (port : Z) : (Z * string) + SocketFile :=
  inr (socket_with []).

(** Handlers that change nothing; only handler 2 returns a truthy value. *)
Definition only_2_stops (h : handler) (ev : Event) (sw : Manager * unit)
    : Manager * unit * bool :=
  (sw, bool_decide (h = 2)).

(** An event named [Hangup], and a session that holds it in its event
    queue with handlers 1, 2, 3 registered for [Hangup] and 4 for ['*']. *)
Definition hangup_event : Event :=
  let msg := ManagerMessage_init ["Event: Hangup" +:+ EOL] in
  mkEvent msg (data msg) (headers msg) (multiheaders msg) "Hangup".

Definition hangup_session : Manager :=
  put_event (obj hangup_event)
    (register_event "*" 4
       (register_event "Hangup" 3
          (register_event "Hangup" 2
             (register_event "Hangup" 1 (greeted_session []))))).

(** Command output between [Response: Follows] and the end marker,
    with a blank line inside, and the blank line that closes it. *)
Definition follows_middle : list string := ["show" +:+ EOL; EOL].
Definition follows_marker : string := END_COMMAND +:+ EOL.
Definition follows_stream : list string :=
  RESPONSE_FOLLOWS :: follows_middle ++ [follows_marker; EOL].
Definition follows_group : list string :=
  RESPONSE_FOLLOWS :: follows_middle ++ [follows_marker].

(** The usual banner, and a banner with a second slash. *)
Definition banner : string := "Asterisk Call Manager/1.1" +:+ EOL.
Definition banner_two_slashes : string := "Asterisk Call Manager/1.1/beta" +:+ EOL.

(** A connected session that already holds one response, and a
    request made of keyword arguments only. *)
Definition answered_session : Manager :=
  put_response (obj (ManagerMessage_init ["Response: Pong" +:+ EOL]))
    (greeted_session []).
Definition ping_kwargs : dict := [("Action", VStr "Ping")].

(** ** login *)

(** [_Message.get_header(hname)] with the default [None]. *)
Definition get_header (h : gmap string string) (hname : string) : option string :=
  h !! hname.

(** What [login] does for its caller; [LoginAuthError m] is
    [raise ManagerAuthException(m)], where [m] is the [Message] header
    of the response or [None]. *)
Inductive login_result :=
| LoginReturn (response : ManagerMessage)
| LoginAuthError (message : option string)
| LoginRaise (e : exn)
| LoginBlocked.

(** [Manager.login(self, username, secret)]: the dictionary literal is
    a new object of the store. *)
Definition login (self : Manager) (st : store) (username secret : string)
    : Manager * store * login_result :=
  let cdict := [("Action", VStr "Login"); ("Username", VStr username);
                ("Secret", VStr secret)] in
  match send_action self (st ++ [cdict]) (Some (length st)) [] with
  | (self, st, Return response) =>
      if bool_decide (get_header (headers response) "Response" = Some "Error")
      then (self, st, LoginAuthError (get_header (headers response) "Message"))
      else (self, st, LoginReturn response)
  | (self, st, Raise e) => (self, st, LoginRaise e)
  | (self, st, Blocked) => (self, st, LoginBlocked)
  end.

(** ** Further vocabulary *)

(** The test [_receive_data] makes on a header line to wait for the
    end marker. *)
Definition is_follows (line : string) : bool :=
  startswith line "Response"
  && String.eqb (strip (nth 1 (split1 ":" line) "")) "Follows".

(** The shape of a banner: a slash and no colon. *)
Definition banner_like (line : string) : bool :=
  contains "/" line && negb (contains ":" line).

(** A line of an ordinary group on session [self]: it is not blank,
    does not announce command output, and is not taken for the
    banner. *)
Definition ordinary_line (self : Manager) (line : string) : bool :=
  negb (String.eqb line EOL) && negb (is_follows line)
  && (truthy (title self) || negb (banner_like line)).

(** The event object [message_loop] builds from an event message. *)
Definition to_event (msg : ManagerMessage) : Event :=
  mkEvent msg (data msg) (headers msg) (multiheaders msg)
          (default "" (headers msg !! "Event")).

(** Whether [message_loop] takes a message as an event. *)
Definition is_event_message (msg : ManagerMessage) : bool :=
  has_header (headers msg) "Event".

(** [n] callers that wait in [send_action] take their turn one after
    the other; the result lists what each call does. *)
Fixpoint resume_waiters (n : nat) (self : Manager)
    : Manager * list (outcome ManagerMessage) :=
  match n with
  | O => (self, [])
  | S n' =>
      let '(self1, r) := send_action_wait self in
      let '(self2, rs) := resume_waiters n' self1 in
      (self2, r :: rs)
  end.

(** The fields of a request as the pairs sent, one per line. *)
Definition fields_of (d : dict) : list (string * string) :=
  flat_map (λ kv,
    match kv.2 with
    | VList l => (λ it, (kv.1, it)) <$> l
    | VStr s => [(kv.1, s)]
    end) d.

(** A field that is read back as sent: no colon in the key and no
    white space around the key or the value. *)
Definition clean_field (f : string * string) : bool :=
  negb (contains ":" f.1) && String.eqb (strip f.1) f.1 && String.eqb (strip f.2) f.2.

(** Reading back the hexadecimal field of an ActionID. *)
Definition read_hex (s : string) : option N :=
  N.of_hex_uint <$> HexadecimalString.NilEmpty.uint_of_string s.

(** ** Further concrete sessions *)

(** A successful answer, as two header lines. *)
Definition success_lines : list string :=
  ["Response: Success" +:+ EOL; "Message: Authentication accepted" +:+ EOL].


(** A network whose server sends the banner. *)
Definition banner_network (host : string) (port : Z) : (Z * string) + SocketFile :=
  inr (socket_with [banner]).

(** The request of the docstring of [send_action]. *)
Definition originate_fields : dict :=
  [("Action", VStr "Originate"); ("Variable", VList ["var1=value"; "var2=value"])].

(** A connected session that holds two responses. *)
Definition twice_answered_session : Manager :=
  put_response (obj (ManagerMessage_init ["Response: Success" +:+ EOL]))
               answered_session.

(** A running session with an event and a response to route. *)
Definition routed_groups : list (list string) :=
  [["Event: Hangup" +:+ EOL]; ["Response: Pong" +:+ EOL]].
Definition routed_session : Manager :=
  set_message_queue (obj <$> routed_groups) (greeted_session []).

(** A running session told to stop while two callers wait. *)
Definition closing_session : Manager :=
  set_response_waiters [1; 1]%Z (put_message sentinel (greeted_session [])).

(** * Properties *)

(** ** Strings *)

Lemma prefix_nil s : String.prefix "" s = true.
Proof. by destruct s. Qed.

Lemma contains_char_cons c a s :
  contains (String c "") (String a s)
  = Ascii.eqb a c || contains (String c "") s.
Proof.
  cbn [contains String.prefix]. destruct (ascii_dec c a) as [->|Hne].
  - by rewrite prefix_nil, Ascii.eqb_refl.
  - assert (Ascii.eqb a c = false) as -> by (apply Ascii.eqb_neq; congruence).
    done.
Qed.

Lemma split1_char c s :
  split1 c s = if contains (String c "") s then [before c s; after c s] else [s].
Proof.
  induction s as [|a s IH]; [done|].
  rewrite contains_char_cons. cbn [split1 before after].
  destruct (Ascii.eqb a c); [done|]. rewrite IH. cbn [orb].
  by destruct (contains (String c "") s).
Qed.

Lemma split_head c s : nth 0 (split c s) "" = before c s.
Proof.
  induction s as [|a s IH]; [done|]. cbn [split before].
  destruct (Ascii.eqb a c); [done|].
  destruct (split c s) as [|x r]; cbn in *; by rewrite <- IH.
Qed.

Lemma split_nonempty c s : split c s ≠ [].
Proof.
  destruct s as [|a s]; [done|]. cbn [split].
  destruct (Ascii.eqb a c); [done|]. by destruct (split c s).
Qed.

Lemma split_second c s :
  nth 1 (split c s) "" = before c (after c s).
Proof.
  induction s as [|a s IH]; [done|]. cbn [split after].
  destruct (Ascii.eqb a c).
  - apply split_head.
  - pose proof (split_nonempty c s).
    destruct (split c s) as [|x r]; [done|]. by rewrite <- IH.
Qed.

Lemma append_cons a s t : String a s +:+ t = String a (s +:+ t).
Proof. reflexivity. Qed.

Lemma append_nil_r s : s +:+ "" = s.
Proof. induction s as [|a s IH]; [done|]. by rewrite append_cons, IH. Qed.

Lemma append_assoc (s t u : string) : (s +:+ t) +:+ u = s +:+ (t +:+ u).
Proof. induction s as [|a s IH]; [done|]. by rewrite !append_cons, IH. Qed.

Lemma join_cons x l : join (x :: l) = x +:+ join l.
Proof.
  unfold join. destruct l as [|y l]; [cbn; by rewrite append_nil_r|reflexivity].
Qed.

Lemma join_snoc l x : join (l ++ [x]) = join l +:+ x.
Proof.
  induction l as [|y l IH]; [done|].
  change ((y :: l) ++ [x]) with (y :: (l ++ [x])).
  by rewrite !join_cons, IH, append_assoc.
Qed.

Lemma contains_prefix n s : String.prefix n s = true → contains n s = true.
Proof. intros H. destruct s; cbn [contains]; by rewrite H. Qed.

Lemma contains_append n s t :
  startswith t n = true → contains n (s +:+ t) = true.
Proof.
  intros H. induction s as [|a s IH]; [by apply contains_prefix|].
  rewrite append_cons. cbn [contains]. rewrite IH. by destruct (String.prefix n (String a (s +:+ t))).
Qed.

(** ** parse *)

Lemma header_body_split resp : resp = header_lines resp ++ body_lines resp.
Proof.
  induction resp as [|l r IH]; [done|]. cbn.
  destruct (is_header_line l); [|done]. cbn. by f_equal.
Qed.

Lemma header_lines_all resp :
  Forall (λ l, is_header_line l = true) (header_lines resp).
Proof.
  induction resp as [|l r IH]; cbn; [constructor|].
  destruct (is_header_line l) eqn:E; by constructor.
Qed.

Lemma body_lines_head resp :
  match body_lines resp with
  | [] => True
  | l :: _ => is_header_line l = false
  end.
Proof.
  induction resp as [|l r IH]; cbn; [done|].
  by destruct (is_header_line l) eqn:E.
Qed.

Lemma values_of_cons k k' v kvs :
  values_of k ((k', v) :: kvs)
  = if decide (k' = k) then v :: values_of k kvs else values_of k kvs.
Proof.
  unfold values_of. rewrite filter_cons. cbn. by destruct (decide (k' = k)).
Qed.

Lemma parse_loop_spec resp h mh :
  let kvs := header_of <$> header_lines resp in
  let '(h', mh', d) := parse_loop resp h mh in
  d = body_lines resp
  ∧ (∀ k, h' !! k = match last (values_of k kvs) with
                    | Some v => Some v
                    | None => h !! k
                    end)
  ∧ (∀ k, mh' !! k = match values_of k kvs with
                     | [] => mh !! k
                     | vs => Some (default [] (mh !! k) ++ vs)
                     end).
Proof.
  revert h mh. induction resp as [|line rest IH]; intros h mh; [done|].
  cbn [parse_loop header_lines body_lines]. unfold is_header_line.
  destruct (endswith line EOL); cbn [negb andb]; [|done].
  rewrite split1_char. destruct (contains ":" line); cbn -[values_of]; [|done].
  specialize (IH (<[strip (before ":" line) := strip (after ":" line)]> h)
    (<[strip (before ":" line) :=
         default [] (mh !! strip (before ":" line)) ++ [strip (after ":" line)]]> mh)).
  cbn zeta in IH.
  destruct (parse_loop rest _ _) as [[h' mh'] d]. destruct IH as (Hd & Hh & Hmh).
  split; [done|]. unfold header_of at 1 3. split; intros k.
  - rewrite Hh, values_of_cons. destruct (decide (strip (before ":" line) = k)) as [->|Hne].
    + rewrite last_cons, lookup_insert_eq. by destruct (last _).
    + by rewrite lookup_insert_ne.
  - rewrite Hmh, values_of_cons. destruct (decide (strip (before ":" line) = k)) as [->|Hne].
    + rewrite lookup_insert_eq. destruct (values_of k _); cbn; [done|].
      by rewrite <- app_assoc.
    + by rewrite lookup_insert_ne.
Qed.

(** C3: [parse] takes the leading lines that end in CRLF and contain a
    colon as headers, each split at its first colon with both sides
    stripped; [headers] holds the last value of each key and
    [multiheaders] all its values in order of appearance; parsing
    stops at the first line that lacks a colon or the CRLF ending, and
    [data] is that line and all the following ones joined unchanged. *)
Theorem parse_headers_then_body (resp : list string) :
  let msg := parse (blank_message resp) resp in
  let kvs := header_of <$> header_lines resp in
  resp = header_lines resp ++ body_lines resp
  ∧ Forall (λ l, is_header_line l = true) (header_lines resp)
  ∧ match body_lines resp with
    | [] => True
    | l :: _ => endswith l EOL = false ∨ contains ":" l = false
    end
  ∧ data msg = join (body_lines resp)
  ∧ (∀ k, headers msg !! k = last (values_of k kvs))
  ∧ (∀ k, multiheaders msg !! k = match values_of k kvs with
                                  | [] => None
                                  | vs => Some vs
                                  end).
Proof.
  cbn zeta. split; [apply header_body_split|]. split; [apply header_lines_all|].
  split.
  { pose proof (body_lines_head resp) as H. destruct (body_lines resp) as [|l ?]; [done|].
    unfold is_header_line in H. apply andb_false_iff in H. done. }
  pose proof (parse_loop_spec resp ∅ ∅) as H. cbn zeta in H.
  unfold parse, blank_message. cbn [headers multiheaders response].
  destruct (parse_loop resp ∅ ∅) as [[h mh] d]. destruct H as (-> & Hh & Hmh).
  cbn [data headers multiheaders]. split; [done|]. split; intros k.
  - rewrite Hh, lookup_empty. by destruct (last _).
  - rewrite Hmh, lookup_empty. by destruct (values_of k _).
Qed.

(** ** Classification *)

Lemma has_header_insert_eq h k v : has_header (<[k := v]> h) k = true.
Proof. unfold has_header. by rewrite lookup_insert_eq. Qed.

Lemma has_header_insert_ne h k k' v :
  k ≠ k' → has_header (<[k := v]> h) k' = has_header h k'.
Proof. intros Hne. unfold has_header. by rewrite lookup_insert_ne. Qed.

Lemma has_header_true h k : has_header h k = true ↔ is_Some (h !! k).
Proof. unfold has_header. by rewrite bool_decide_eq_true. Qed.

Lemma init_ladder resp :
  let p := parse (blank_message resp) resp in
  ManagerMessage_init resp =
    if has_header (headers p) "Event" || has_header (headers p) "Response" then p
    else if has_header (headers p) "ActionID"
         then with_generated "Response" "Generated Header" p
    else if contains END_COMMAND (data p)
         then with_generated "Event" "NoClue" p
    else with_generated "Response" "Generated Header" p.
Proof.
  cbn zeta. unfold ManagerMessage_init. fold (blank_message resp).
  set (p := parse (blank_message resp) resp). cbn zeta.
  destruct (has_header (headers p) "Event"), (has_header (headers p) "Response");
    cbn [negb andb orb]; try done.
Qed.

Lemma init_classified resp : classify (ManagerMessage_init resp) ≠ Unclassified.
Proof.
  rewrite init_ladder. cbn zeta. set (p := parse (blank_message resp) resp).
  unfold classify.
  destruct (has_header (headers p) "Event") eqn:He; cbn [orb].
  { by rewrite He. }
  destruct (has_header (headers p) "Response") eqn:Hr.
  { by rewrite He, Hr. }
  destruct (has_header (headers p) "ActionID");
    [|destruct (contains END_COMMAND (data p))]; cbn [with_generated headers].
  - rewrite has_header_insert_ne, He, has_header_insert_eq by done. done.
  - by rewrite has_header_insert_eq.
  - rewrite has_header_insert_ne, He, has_header_insert_eq by done. done.
Qed.

(** C1: building a message from any group of lines leaves it with a
    classification.  When the parsed headers hold neither [Event] nor
    [Response], the constructor adds [Response: Generated Header] if
    there is an [ActionID] header, else [Event: NoClue] if the body
    contains [--END COMMAND--], else [Response: Generated Header], and
    then exactly one of the two headers is present; [message_loop]
    looks for [Event] first, then for [Response], and never reaches
    its third branch. *)
Theorem classification_total (resp : list string) :
  let p := parse (blank_message resp) resp in
  let msg := ManagerMessage_init resp in
  msg = (if has_header (headers p) "Event" || has_header (headers p) "Response" then p
         else if has_header (headers p) "ActionID"
              then with_generated "Response" "Generated Header" p
         else if contains END_COMMAND (data p)
              then with_generated "Event" "NoClue" p
         else with_generated "Response" "Generated Header" p)
  ∧ (if has_header (headers p) "Event" || has_header (headers p) "Response" then True
     else xorb (has_header (headers msg) "Event")
               (has_header (headers msg) "Response") = true)
  ∧ classify msg ≠ Unclassified
  ∧ (classify msg = IsEvent ↔ is_Some (headers msg !! "Event"))
  ∧ (classify msg = IsResponse
     ↔ headers msg !! "Event" = None ∧ is_Some (headers msg !! "Response"))
  ∧ (∀ (self : Manager) q, _message_queue self = obj resp :: q →
       match classify msg with
       | IsEvent =>
           ∃ ev, Event_init msg = inr ev
                 ∧ Some (name ev) = headers msg !! "Event"
                 ∧ message_loop_body self
                   = (put_event (obj ev) (set_message_queue q self), Continue)
       | IsResponse =>
           message_loop_body self
           = (put_response (obj msg) (set_message_queue q self), Continue)
       | Unclassified => False
       end).
Proof.
  cbn zeta. split; [apply init_ladder|]. split.
  { rewrite init_ladder. cbn zeta. set (p := parse (blank_message resp) resp).
    destruct (has_header (headers p) "Event") eqn:He; cbn [orb]; [done|].
    destruct (has_header (headers p) "Response") eqn:Hr; [done|].
    destruct (has_header (headers p) "ActionID");
      [|destruct (contains END_COMMAND (data p))]; cbn [with_generated headers].
    - by rewrite has_header_insert_ne, He, has_header_insert_eq.
    - by rewrite has_header_insert_eq, has_header_insert_ne, Hr.
    - by rewrite has_header_insert_ne, He, has_header_insert_eq. }
  split; [apply init_classified|].
  pose proof (init_classified resp) as Hc. revert Hc.
  set (msg := ManagerMessage_init resp). intros Hc.
  assert (classify msg = IsEvent ↔ is_Some (headers msg !! "Event")) as HE.
  { unfold classify. destruct (has_header (headers msg) "Event") eqn:He.
    - apply has_header_true in He. done.
    - split; [by destruct (has_header (headers msg) "Response")|].
      intros Hs. apply has_header_true in Hs. congruence. }
  split; [done|]. split.
  { unfold classify. destruct (has_header (headers msg) "Event") eqn:He.
    - apply has_header_true in He. split; [done|]. intros [Hn _].
      rewrite Hn in He. by destruct He.
    - assert (headers msg !! "Event" = None) as Hn.
      { destruct (headers msg !! "Event") eqn:E; [|done].
        assert (has_header (headers msg) "Event" = true) by (apply has_header_true; eauto).
        congruence. }
      destruct (has_header (headers msg) "Response") eqn:Hr.
      + apply has_header_true in Hr. done.
      + split; [done|]. intros [_ Hs]. apply has_header_true in Hs. congruence. }
  intros self q Hq. unfold message_loop_body. rewrite Hq. fold msg.
  unfold classify in *. unfold Event_init.
  destruct (has_header (headers msg) "Event") eqn:He; cbn [negb].
  - eexists. split; [done|]. cbn [name]. split; [|done].
    apply has_header_true in He. destruct He as [v ->]. done.
  - destruct (has_header (headers msg) "Response") eqn:Hr; done.
Qed.

(** ** Shutdown fan-out *)

Lemma set_response_queue_id self : set_response_queue (_response_queue self) self = self.
Proof. by destruct self. Qed.

Lemma foldl_put_sentinel (ws : list Z) self :
  foldl (λ s waiter, put_response sentinel s) self ws
  = set_response_queue (_response_queue self ++ replicate (length ws) sentinel) self.
Proof.
  revert self. induction ws as [|w ws IH]; intros self; cbn [foldl length replicate].
  - by rewrite app_nil_r, set_response_queue_id.
  - rewrite IH. unfold put_response, set_response_queue. cbn.
    by rewrite <- app_assoc.
Qed.

(** C4: when [message_loop] takes the sentinel from its queue while
    [_response_waiters] has [N] entries, it puts one sentinel on the
    event queue and [N] sentinels on the response queue, changes
    nothing else, and leaves its loop. *)
Theorem sentinel_fan_out (self : Manager) (q : list (item (list string))) (fuel : nat) :
  is_running self = true →
  _message_queue self = sentinel :: q →
  let N := length (_response_waiters self) in
  let self' :=
    set_response_queue (_response_queue self ++ replicate N sentinel)
      (set_event_queue (_event_queue self ++ [sentinel])
         (set_message_queue q self)) in
  message_loop_body self = (self', Break)
  ∧ message_loop (S fuel) self = (self', Done)
  ∧ _event_queue self' = _event_queue self ++ [sentinel]
  ∧ _response_queue self' = _response_queue self ++ replicate N sentinel
  ∧ _response_waiters self' = _response_waiters self.
Proof.
  intros Hrun Hq. cbn zeta.
  assert (message_loop_body self =
    (set_response_queue
       (_response_queue self ++ replicate (length (_response_waiters self)) sentinel)
       (set_event_queue (_event_queue self ++ [sentinel]) (set_message_queue q self)),
     Break)) as Hbody.
  { unfold message_loop_body. rewrite Hq. by rewrite foldl_put_sentinel. }
  split; [done|]. split; [|done].
  cbn [message_loop]. by rewrite Hrun, Hbody.
Qed.

Lemma sentinel_fan_out_witness :
  let self := set_response_waiters [1; 1; 1]%Z
                (put_message sentinel (greeted_session [])) in
  is_running self = true
  ∧ _message_queue self = [sentinel]
  ∧ (message_loop 1 self).2 = Done
  ∧ _event_queue (message_loop 1 self).1 = [sentinel]
  ∧ _response_queue (message_loop 1 self).1 = [sentinel; sentinel; sentinel].
Proof.
  cbn zeta. split; [reflexivity|]. split; [reflexivity|].
  destruct (sentinel_fan_out
              (set_response_waiters [1; 1; 1]%Z
                 (put_message sentinel (greeted_session []))) [] 0)
    as (_ & -> & _); [reflexivity|reflexivity|].
  repeat split; reflexivity.
Defined.

(** ** Event dispatch *)

Section DispatchProperties.
Context {World : Type}.
Variable call : handler → Event → Manager * World → Manager * World * bool.

Lemma replay_app hs hs' ev (sw : Manager * World) :
  replay call (hs ++ hs') ev sw = replay call hs' ev (replay call hs ev sw).
Proof. revert sw. induction hs as [|h hs IH]; intros sw; cbn; [done|]. apply IH. Qed.

Lemma run_callbacks_spec cbs ev (sw : Manager * World) :
  let '(sw', log) := run_callbacks call cbs ev sw in
  (all_falsy call cbs ev sw = true
   ∧ log = (λ h, (h, false)) <$> cbs
   ∧ sw' = replay call cbs ev sw)
  ∨ (∃ pre h post,
       cbs = pre ++ h :: post
       ∧ all_falsy call pre ev sw = true
       ∧ answer call h ev (replay call pre ev sw) = true
       ∧ log = ((λ h, (h, false)) <$> pre) ++ [(h, true)]
       ∧ sw' = replay call (pre ++ [h]) ev sw).
Proof.
  revert sw. induction cbs as [|cb cbs IH]; intros sw; cbn [run_callbacks].
  { left. done. }
  destruct (call cb ev sw) as [sw1 r] eqn:Hcall. destruct r.
  - right. exists [], cb, cbs. cbn. unfold answer. rewrite Hcall. done.
  - specialize (IH sw1). destruct (run_callbacks call cbs ev sw1) as [sw2 log].
    destruct IH as [(Hall & -> & ->)|(pre & h & post & -> & Hall & Hans & -> & ->)].
    + left. cbn. unfold answer. rewrite Hcall. done.
    + right. exists (cb :: pre), h, post. cbn. unfold answer in *.
      rewrite Hcall. done.
Qed.

(** C5: for an event taken from the queue the dispatcher calls the
    handlers registered under the event's name, in registration
    order, and then those registered under ['*'], in registration
    order.  Either every one of them returns a falsy value and all
    are called, or the calls end with the first handler that returns
    a truthy value and no later handler of the combined list is
    called. *)
Theorem dispatch_in_order_until_truthy (self : Manager) (w : World) (ev : Event)
    (q : list (item Event)) :
  _event_queue self = obj ev :: q →
  let sw := (set_event_queue q self, w) in
  let cbs := default [] (_event_callbacks self !! name ev)
             ++ default [] (_event_callbacks self !! "*") in
  (∀ e f (m : Manager),
     _event_callbacks (register_event e f m) !! e
     = Some (default [] (_event_callbacks m !! e) ++ [f]))
  ∧ ∃ sw' log,
      event_dispatch_body call (self, w) = (sw', log, Continue)
      ∧ ((all_falsy call cbs ev sw = true
          ∧ log = (λ h, (h, false)) <$> cbs
          ∧ sw' = replay call cbs ev sw)
         ∨ (∃ pre h post,
              cbs = pre ++ h :: post
              ∧ all_falsy call pre ev sw = true
              ∧ answer call h ev (replay call pre ev sw) = true
              ∧ log = ((λ h, (h, false)) <$> pre) ++ [(h, true)]
              ∧ sw' = replay call (pre ++ [h]) ev sw)).
Proof.
  intros Hq. cbn zeta. split.
  { intros e f m. unfold register_event. cbn. by rewrite lookup_insert_eq. }
  unfold event_dispatch_body. cbn [fst snd]. rewrite Hq. cbn [fst snd].
  pose proof (run_callbacks_spec (callbacks_for (set_event_queue q self) ev) ev
                (set_event_queue q self, w)) as H.
  revert H.
  generalize (run_callbacks call (callbacks_for (set_event_queue q self) ev) ev
                (set_event_queue q self, w)).
  intros [sw' log] H. exists sw', log. split; [done|]. exact H.
Qed.

End DispatchProperties.

Lemma dispatch_in_order_until_truthy_witness :
  _event_queue hangup_session = [obj hangup_event]
  ∧ ∃ sw' log,
      event_dispatch_body only_2_stops (hangup_session, ()) = (sw', log, Continue)
      ∧ log = [(1, false); (2, true)].
Proof.
  split; [reflexivity|].
  destruct (dispatch_in_order_until_truthy only_2_stops hangup_session ()
              hangup_event [] eq_refl) as (_ & sw' & log & Hbody & _).
  exists sw', log. split; [exact Hbody|].
  pose proof (eq_refl : (event_dispatch_body only_2_stops (hangup_session, ())).1.2
                        = [(1, false); (2, true)]) as E.
  rewrite Hbody in E. exact E.
Defined.

(** ** The frame reader *)

Lemma parse_data resp : data (parse (blank_message resp) resp) = join (body_lines resp).
Proof.
  pose proof (parse_loop_spec resp ∅ ∅) as H. cbn zeta in H.
  unfold parse, blank_message. cbn [headers multiheaders].
  destruct (parse_loop resp ∅ ∅) as [[h mh] d]. by destruct H as (-> & _).
Qed.

Lemma init_data resp : data (ManagerMessage_init resp) = join (body_lines resp).
Proof.
  rewrite init_ladder. cbn zeta. rewrite <- parse_data.
  by repeat match goal with |- context [if ?b then _ else _] => destruct b end.
Qed.

Lemma body_lines_keep (x : string) (l l' : list string) :
  x ∈ l → is_header_line x = false →
  body_lines (l ++ l') = body_lines l ++ l' ∧ x ∈ body_lines l.
Proof.
  intros Hin Hx. induction l as [|y l IH]; [by apply elem_of_nil in Hin|].
  cbn [app body_lines]. destruct (is_header_line y) eqn:Hy.
  - apply elem_of_cons in Hin as [->|Hin]; [congruence|]. by apply IH.
  - done.
Qed.

Lemma accumulate_waiting line loc :
  wait_for_marker loc = true → startswith line END_COMMAND = false →
  accumulate line loc
  = mkLocals (lines loc ++ [line])
             (multiline loc || negb (is_header_line line)) true.
Proof.
  intros Hw Hs. unfold accumulate, is_header_line. rewrite Hw, Hs, negb_andb.
  destruct (negb (endswith line EOL) || negb (contains ":" line)), (multiline loc);
    cbn; by repeat match goal with |- context [if ?b then _ else _] => destruct b end.
Qed.

Lemma accumulate_marker line loc :
  multiline loc = true → startswith line END_COMMAND = true →
  accumulate line loc = mkLocals (lines loc ++ [line]) false false.
Proof.
  intros Hm Hs. unfold accumulate. rewrite Hm, Hs.
  by destruct (negb (endswith line EOL) || negb (contains ":" line)).
Qed.

Lemma accumulate_follows loc :
  multiline loc = false →
  accumulate RESPONSE_FOLLOWS loc = mkLocals (lines loc ++ [RESPONSE_FOLLOWS]) false true.
Proof. intros Hm. unfold accumulate. rewrite Hm. reflexivity. Qed.

Lemma for_line_plain line stream self loc :
  truthy (title self) = true → is_connected self = true →
  String.eqb line EOL && negb (wait_for_marker loc) = false →
  for_line_in_sock (RLine line :: stream) self loc
  = for_line_in_sock stream self (accumulate line loc).
Proof.
  intros Ht Hc He. cbn [for_line_in_sock]. by rewrite Ht, He, Hc.
Qed.

Lemma for_line_waiting (mid : list string) (stream : list sock_read) self loc :
  truthy (title self) = true → is_connected self = true →
  wait_for_marker loc = true →
  Forall (λ l, startswith l END_COMMAND = false) mid →
  for_line_in_sock ((RLine <$> mid) ++ stream) self loc
  = for_line_in_sock stream self
      (mkLocals (lines loc ++ mid)
                (multiline loc || existsb (λ l, negb (is_header_line l)) mid)
                true).
Proof.
  intros Ht Hc. revert loc. induction mid as [|line mid IH]; intros loc Hw Hall.
  - cbn. rewrite app_nil_r, orb_false_r. destruct loc; cbn in *. by subst.
  - apply Forall_cons in Hall as [Hline Hall]. cbn [fmap list_fmap app].
    rewrite for_line_plain; [|done|done|by rewrite Hw, andb_false_r].
    rewrite accumulate_waiting by done. rewrite IH by done.
    cbn [lines multiline existsb]. by rewrite <- app_assoc, orb_assoc.
Qed.

Lemma existsb_elem {A} (f : A → bool) (x : A) (l : list A) :
  x ∈ l → f x = true → existsb f l = true.
Proof.
  intros Hin Hx. apply existsb_exists. exists x. split; [|done].
  by apply list_elem_of_In.
Qed.

(** C2, as the code has it: a group made of [Response: Follows], then
    lines among which a bare EOL and none that begins with
    [--END COMMAND--], then a line that begins with it, is closed by
    the blank line that follows and is put on the message queue as
    one group; the body of the message built from it contains the
    embedded blank line and ends with the marker line. *)
Theorem follows_group_keeps_marker (self : Manager) (sk : SocketFile) (loc : locals)
    (mid : list string) (marker : string) (rest : list sock_read) :
  _sock self = Some sk →
  incoming sk = RLine RESPONSE_FOLLOWS
                  :: (RLine <$> mid) ++ RLine marker :: RLine EOL :: rest →
  is_connected self = true →
  truthy (title self) = true →
  multiline loc = false →
  EOL ∈ mid →
  Forall (λ l, startswith l END_COMMAND = false) mid →
  startswith marker END_COMMAND = true →
  let group := RESPONSE_FOLLOWS :: mid ++ [marker] in
  let msg := ManagerMessage_init group in
  _receive_data_pass self loc
  = Some (put_message (obj group)
            (set_sock (Some (mkSocketFile rest (written sk) (closed sk) (write_error sk)))
               self),
          mkLocals group false false)
  ∧ EOL ∈ body_lines mid
  ∧ data msg = join (body_lines mid) +:+ marker
  ∧ contains END_COMMAND (data msg) = true.
Proof.
  intros Hsock Hin Hc Ht Hm HEOL Hall Hmarker. cbn zeta.
  destruct (body_lines_keep EOL mid [marker] HEOL eq_refl) as [Hbody HEOLb].
  assert (data (ManagerMessage_init (RESPONSE_FOLLOWS :: mid ++ [marker]))
          = join (body_lines mid ++ [marker])) as Hdata.
  { rewrite init_data. change (body_lines (RESPONSE_FOLLOWS :: mid ++ [marker]))
      with (body_lines (mid ++ [marker])). by rewrite Hbody. }
  rewrite join_snoc in Hdata.
  split; [|by rewrite Hdata, contains_append].
  unfold _receive_data_pass. rewrite Hsock, Hin.
  rewrite for_line_plain; [|done|done|reflexivity].
  rewrite accumulate_follows by done. cbn [lines app].
  rewrite for_line_waiting by done. cbn [lines multiline orb].
  rewrite (existsb_elem _ EOL mid HEOL eq_refl).
  rewrite for_line_plain; [|done|done|by rewrite Hmarker || (cbn; apply andb_false_r)].
  rewrite accumulate_marker by done. cbn [lines].
  cbn [for_line_in_sock]. rewrite Ht. cbn [negb andb wait_for_marker lines].
  rewrite String.eqb_refl. cbn [andb negb].
  rewrite bool_decide_eq_false_2 by (by destruct mid). cbn [negb lines].
  rewrite bool_decide_eq_false_2 by (by destruct mid). cbn [negb].
  unfold is_connected in *. cbn. rewrite Hc. cbn. done.
Qed.

Lemma follows_group_keeps_marker_witness :
  _receive_data_pass (greeted_session follows_stream) (mkLocals [] false false)
  = Some (put_message (obj follows_group)
            (set_sock (Some (socket_with [])) (greeted_session follows_stream)),
          mkLocals follows_group false false)
  ∧ EOL ∈ body_lines follows_middle
  ∧ data (ManagerMessage_init follows_group)
    = join (body_lines follows_middle) +:+ follows_marker
  ∧ contains END_COMMAND (data (ManagerMessage_init follows_group)) = true.
Proof.
  apply (follows_group_keeps_marker (greeted_session follows_stream)
           (socket_with follows_stream) (mkLocals [] false false)
           follows_middle follows_marker []);
    try reflexivity.
  - right. left.
  - repeat constructor.
Defined.

(** C2, as stated, fails on this group: the body of the message built
    from it is not the output before the marker line, it holds the
    marker line too. *)
Lemma follows_body_holds_marker_line :
  ∃ self' loc',
    _receive_data_pass (greeted_session follows_stream) (mkLocals [] false false)
    = Some (self', loc')
    ∧ _message_queue self' = [obj follows_group]
    ∧ data (ManagerMessage_init follows_group)
      = "show" +:+ EOL +:+ EOL +:+ END_COMMAND +:+ EOL
    ∧ data (ManagerMessage_init follows_group) ≠ "show" +:+ EOL +:+ EOL
    ∧ contains END_COMMAND (data (ManagerMessage_init follows_group)) = true.
Proof.
  eexists _, _. split; [reflexivity|]. split; [reflexivity|].
  split; [reflexivity|]. split; [|reflexivity].
  intros H. vm_compute in H. discriminate H.
Qed.

(** ** The greeting *)

Lemma has_header_empty k : has_header ∅ k = false.
Proof. unfold has_header. by rewrite lookup_empty. Qed.

Lemma parse_loop_header line rest h mh :
  is_header_line line = true →
  parse_loop (line :: rest) h mh
  = parse_loop rest (<[(header_of line).1 := (header_of line).2]> h)
      (<[(header_of line).1 :=
           default [] (mh !! (header_of line).1) ++ [(header_of line).2]]> mh).
Proof.
  unfold is_header_line. intros [He Hc]%andb_true_iff. cbn [parse_loop].
  by rewrite He, split1_char, Hc.
Qed.

Lemma parse_loop_stop line rest h mh :
  is_header_line line = false → parse_loop (line :: rest) h mh = (h, mh, line :: rest).
Proof.
  unfold is_header_line. intros H. cbn [parse_loop].
  destruct (endswith line EOL); [|done]. cbn in H.
  by rewrite split1_char, H.
Qed.

(** C8, as the code has it: while the session has no title, a line
    with a slash and no colon is the banner.  The title becomes the
    stripped text before the first slash and the version the stripped
    text between the first slash and the next one (or the end of the
    line); the reader ends the group at once as the two lines
    [Response: Generated Header] and the banner, which make a
    response whose body is the banner line. *)
Theorem banner_sets_title_and_version (self : Manager) (sk : SocketFile)
    (loc : locals) (line : string) (rest : list sock_read) :
  _sock self = Some sk →
  incoming sk = RLine line :: rest →
  truthy (title self) = false →
  is_connected self = true →
  contains "/" line = true →
  contains ":" line = false →
  let group := ["Response: Generated Header" +:+ EOL; line] in
  let msg := ManagerMessage_init group in
  _receive_data_pass self loc
  = Some (put_message (obj group)
            (set_sock (Some (mkSocketFile rest (written sk) (closed sk) (write_error sk)))
               (set_greeting (Some (strip (before "/" line)))
                             (Some (strip (before "/" (after "/" line)))) self)),
          mkLocals group (multiline loc) (wait_for_marker loc))
  ∧ headers msg = {["Response" := "Generated Header"]}
  ∧ data msg = line
  ∧ classify msg = IsResponse.
Proof.
  intros Hsock Hin Ht Hc Hslash Hcolon. cbn zeta. split.
  { unfold _receive_data_pass. rewrite Hsock, Hin. cbn [for_line_in_sock].
    rewrite Ht, Hslash, Hcolon. cbn [negb andb lines app multiline wait_for_marker].
    rewrite split_head, split_second.
    rewrite bool_decide_eq_false_2 by done. cbn [negb].
    unfold is_connected in *. cbn. by rewrite Hc. }
  assert (is_header_line line = false) as Hline.
  { unfold is_header_line. rewrite Hcolon. apply andb_false_r. }
  assert (parse (blank_message ["Response: Generated Header" +:+ EOL; line])
                ["Response: Generated Header" +:+ EOL; line]
          = {| response := ["Response: Generated Header" +:+ EOL; line];
               data := line;
               headers := {["Response" := "Generated Header"]};
               multiheaders := {["Response" := ["Generated Header"]]} |}) as Hparse.
  { unfold parse, blank_message. cbn [headers multiheaders response].
    rewrite parse_loop_header by reflexivity. rewrite parse_loop_stop by done.
    reflexivity. }
  assert (ManagerMessage_init ["Response: Generated Header" +:+ EOL; line]
          = parse (blank_message ["Response: Generated Header" +:+ EOL; line])
                  ["Response: Generated Header" +:+ EOL; line]) as Hinit.
  { rewrite init_ladder. cbn zeta. rewrite Hparse. cbn [headers].
    unfold has_header. rewrite lookup_singleton_eq, lookup_singleton_ne by done.
    done. }
  rewrite Hinit, Hparse. cbn [headers data]. split; [done|]. split; [done|].
  unfold classify, has_header. cbn [headers].
  rewrite lookup_singleton_eq, lookup_singleton_ne by done. done.
Qed.

Lemma banner_sets_title_and_version_witness :
  ∃ self' loc',
    _receive_data_pass (fresh_session [banner]) (mkLocals [] false false)
    = Some (self', loc')
    ∧ title self' = Some "Asterisk Call Manager"
    ∧ version self' = Some "1.1"
    ∧ _message_queue self' = [obj ["Response: Generated Header" +:+ EOL; banner]]
    ∧ classify (ManagerMessage_init ["Response: Generated Header" +:+ EOL; banner])
      = IsResponse.
Proof.
  destruct (banner_sets_title_and_version (fresh_session [banner])
              (socket_with [banner]) (mkLocals [] false false) banner []
              eq_refl eq_refl eq_refl eq_refl eq_refl eq_refl)
    as (Hpass & _ & _ & Hclass).
  eexists _, _. split; [exact Hpass|]. split; [reflexivity|].
  split; [reflexivity|]. split; [reflexivity|exact Hclass].
Defined.

(** C8, as stated, fails on a banner with two slashes: the version is
    not the stripped text after the slash. *)
Lemma version_stops_at_second_slash :
  ∃ self' loc',
    _receive_data_pass (fresh_session [banner_two_slashes]) (mkLocals [] false false)
    = Some (self', loc')
    ∧ title self' = Some (strip (before "/" banner_two_slashes))
    ∧ version self' = Some "1.1"
    ∧ strip (after "/" banner_two_slashes) = "1.1/beta"
    ∧ version self' ≠ Some (strip (after "/" banner_two_slashes)).
Proof.
  eexists _, _. split; [reflexivity|]. split; [reflexivity|].
  split; [reflexivity|]. split; [reflexivity|].
  intros H. vm_compute in H. discriminate H.
Qed.

(** ** connect *)

(** C9, as the code has it: [connect] on a connected session raises
    [ManagerException] with the text [Already connected to manager],
    which is not a [ManagerSocketException], and changes nothing. *)
Theorem connect_twice_raises_ManagerException
    (network : string → Z → (Z * string) + SocketFile)
    (self : Manager) (host : string) (port : Z) :
  is_connected self = true →
  connect network self host port
  = (self, Raise (ManagerException "Already connected to manager"))
  ∧ is_ManagerException (ManagerException "Already connected to manager") = true
  ∧ is_ManagerSocketException (ManagerException "Already connected to manager") = false.
Proof.
  intros Hc. unfold connect, connect_enter. by rewrite Hc.
Qed.

Lemma connect_twice_raises_ManagerException_witness :
  is_connected (greeted_session []) = true
  ∧ connect open_network (greeted_session []) "pbx" 5038
    = (greeted_session [], Raise (ManagerException "Already connected to manager")).
Proof.
  split; [reflexivity|].
  apply (connect_twice_raises_ManagerException open_network (greeted_session [])
           "pbx" 5038 eq_refl).
Defined.

(** C9, as stated, fails: the exception a second [connect] raises is
    not a socket error. *)
Lemma second_connect_is_no_socket_error :
  is_connected (greeted_session []) = true
  ∧ ¬ ∃ e, (connect open_network (greeted_session []) "pbx" 5038).2 = Raise e
           ∧ is_ManagerSocketException e = true.
Proof.
  split; [reflexivity|]. intros (e & He & Hs). cbn in He.
  injection He as <-. discriminate Hs.
Qed.

(** ** The request dictionary *)

Lemma dict_get_set k k' v d :
  dict_get k' (dict_set k v d) = if decide (k = k') then Some v else dict_get k' d.
Proof.
  induction d as [|[k0 v0] d IH]; cbn [dict_set dict_get].
  - destruct (String.eqb_spec k' k) as [->|Hne].
    + by rewrite decide_True.
    + by rewrite decide_False.
  - destruct (String.eqb_spec k k0) as [->|Hk]; cbn [dict_get].
    + destruct (String.eqb_spec k' k0) as [->|Hne].
      * by rewrite decide_True.
      * by rewrite decide_False.
    + rewrite IH. destruct (String.eqb_spec k' k0) as [->|Hk']; [|done].
      by rewrite decide_False.
Qed.

Lemma dict_has_get k d : dict_has k d = true ↔ is_Some (dict_get k d).
Proof.
  unfold dict_has. rewrite bool_decide_eq_true.
  induction d as [|[k0 v0] d IH]; cbn [dict_get fmap list_fmap fst].
  - split; [by intros ?%elem_of_nil|by intros [? ?]].
  - rewrite elem_of_cons, IH. destruct (String.eqb_spec k k0) as [->|Hne].
    + split; eauto.
    + split; [by intros [?|?]|by right].
Qed.

Lemma dict_has_set k v d : dict_has k (dict_set k v d) = true.
Proof. apply dict_has_get. rewrite dict_get_set. by rewrite decide_True. Qed.

Lemma dict_update_cons kv kwargs d :
  dict_update d (kv :: kwargs) = dict_update (dict_set kv.1 kv.2 d) kwargs.
Proof. reflexivity. Qed.

Lemma dict_update_get_other k d kwargs :
  k ∉ kwargs.*1 → dict_get k (dict_update d kwargs) = dict_get k d.
Proof.
  revert d. induction kwargs as [|[k0 v0] kw IH]; intros d Hk; [done|].
  rewrite dict_update_cons, IH.
  - rewrite dict_get_set. cbn. rewrite decide_False; [done|].
    intros ->. apply Hk. cbn. left.
  - intros Hin. apply Hk. cbn. by right.
Qed.

Lemma dict_update_get k v d kwargs :
  NoDup kwargs.*1 → (k, v) ∈ kwargs → dict_get k (dict_update d kwargs) = Some v.
Proof.
  revert d. induction kwargs as [|[k0 v0] kw IH]; intros d Hnd Hin.
  { by apply elem_of_nil in Hin. }
  cbn in Hnd. apply NoDup_cons in Hnd as [Hk0 Hnd].
  rewrite dict_update_cons. apply elem_of_cons in Hin as [Heq|Hin].
  - injection Heq as -> ->. rewrite dict_update_get_other by done.
    rewrite dict_get_set. by rewrite decide_True.
  - by apply IH.
Qed.

Lemma cdict_or_new_valid st cdict :
  (cdict_or_new st cdict).2 < length (cdict_or_new st cdict).1.
Proof.
  unfold cdict_or_new. destruct cdict as [a|].
  - case_bool_decide as Hd; cbn.
    + rewrite length_app. cbn. lia.
    + unfold deref in Hd. destruct (st !! a) eqn:E; [|done].
      by apply lookup_lt_Some in E.
  - cbn. rewrite length_app. cbn. lia.
Qed.

Lemma deref_insert st a d : a < length st → deref (<[a := d]> st) a = d.
Proof. intros H. unfold deref. by rewrite list_lookup_insert_eq. Qed.

(** What [send_action] leaves in the store and in the counter of a
    connected session. *)
Lemma send_action_enter_effect self st cdict kwargs :
  is_connected self = true →
  let st0 := (cdict_or_new st cdict).1 in
  let a := (cdict_or_new st cdict).2 in
  let d1 := dict_update (deref st0 a) kwargs in
  let stamped := negb (dict_has "ActionID" d1) in
  let d2 := if stamped
            then dict_set "ActionID"
                   (VStr (format_ActionID (hostname self) (pid self) (_seq self))) d1
            else d1 in
  let r := send_action_enter self st cdict kwargs in
  r.1.2 = <[a := d2]> st0
  ∧ _seq r.1.1 = (if stamped then _seq self + 1 else _seq self)%N
  ∧ hostname r.1.1 = hostname self
  ∧ pid r.1.1 = pid self
  ∧ is_connected r.1.1 = true.
Proof.
  intros Hc. cbn zeta. pose proof (cdict_or_new_valid st cdict) as Hlt.
  unfold send_action_enter. destruct (cdict_or_new st cdict) as [st0 a].
  cbn [fst snd] in *. rewrite Hc. cbn [negb].
  rewrite deref_insert by done.
  destruct (dict_has "ActionID" (dict_update (deref st0 a) kwargs)); cbn [negb].
  - destruct (_sock self) as [sk|]; [destruct (sock_write _ sk)|]; cbn;
      repeat split; exact Hc.
  - cbn [next_seq]. rewrite list_insert_insert_eq.
    destruct (_sock (set_seq (_seq self + 1) self)) as [sk|];
      [destruct (sock_write _ sk)|]; cbn; repeat split; exact Hc.
Qed.

Lemma send_action_effect self st cdict kwargs :
  let r := send_action self st cdict kwargs in
  let r0 := send_action_enter self st cdict kwargs in
  r.1.2 = r0.1.2
  ∧ _seq r.1.1 = _seq r0.1.1
  ∧ hostname r.1.1 = hostname r0.1.1
  ∧ pid r.1.1 = pid r0.1.1
  ∧ is_connected r.1.1 = is_connected r0.1.1.
Proof.
  cbn zeta. unfold send_action.
  destruct (send_action_enter self st cdict kwargs) as [[self1 st1] [[]|e|]];
    cbn [fst snd]; try done.
  unfold send_action_wait. destruct (_response_queue self1) as [|[|m] q]; done.
Qed.

Lemma cdict_or_new_nonempty st a d :
  st !! a = Some d → d ≠ [] → cdict_or_new st (Some a) = (st, a).
Proof.
  intros Ha Hd. unfold cdict_or_new, deref. rewrite Ha. cbn.
  by rewrite bool_decide_eq_false_2.
Qed.

(** C10, as the code has it: a dictionary passed as [cdict] that is
    not empty is changed in place, whatever the call then does on a
    connected session: afterwards it holds every keyword argument and
    an [ActionID], the one generated when there was none; no other
    dictionary changes and none is created. *)
Theorem nonempty_cdict_is_mutated (self : Manager) (st : store) (a : nat)
    (d : dict) (kwargs : dict) :
  is_connected self = true →
  st !! a = Some d →
  d ≠ [] →
  NoDup kwargs.*1 →
  let st' := (send_action self st (Some a) kwargs).1.2 in
  let d1 := dict_update d kwargs in
  length st' = length st
  ∧ (∀ b, b ≠ a → st' !! b = st !! b)
  ∧ st' !! a
    = Some (if dict_has "ActionID" d1 then d1
            else dict_set "ActionID"
                   (VStr (format_ActionID (hostname self) (pid self) (_seq self))) d1)
  ∧ dict_has "ActionID" (deref st' a) = true
  ∧ (∀ k v, (k, v) ∈ kwargs → dict_get k (deref st' a) = Some v).
Proof.
  intros Hc Ha Hd Hnd. cbn zeta.
  destruct (send_action_effect self st (Some a) kwargs) as (-> & _).
  destruct (send_action_enter_effect self st (Some a) kwargs Hc) as (-> & _).
  rewrite (cdict_or_new_nonempty st a d Ha Hd). cbn [fst snd].
  assert (a < length st) as Hlt by (by apply lookup_lt_Some in Ha).
  assert (deref st a = d) as -> by (unfold deref; by rewrite Ha).
  split; [by rewrite length_insert|].
  split; [intros b Hb; by rewrite list_lookup_insert_ne|].
  rewrite deref_insert by done. rewrite list_lookup_insert_eq by done.
  destruct (dict_has "ActionID" (dict_update d kwargs)) eqn:Hid; cbn [negb].
  - split; [done|]. split; [done|]. intros k v Hin. by apply dict_update_get.
  - split; [done|]. split; [apply dict_has_set|]. intros k v Hin.
    pose proof (dict_update_get k v d kwargs Hnd Hin) as Hget.
    rewrite dict_get_set. destruct (decide ("ActionID" = k)) as [<-|Hne]; [|done].
    assert (dict_has "ActionID" (dict_update d kwargs) = true) as Hhas.
    { apply dict_has_get. by rewrite Hget. }
    congruence.
Qed.

Lemma nonempty_cdict_is_mutated_witness :
  let st' := (send_action answered_session [[("Channel", VStr "SIP/100")]]
                (Some 0) ping_kwargs).1.2 in
  is_connected answered_session = true
  ∧ st' !! 0 = Some [("Channel", VStr "SIP/100"); ("Action", VStr "Ping");
                     ("ActionID", VStr "pbx-4242-00000000")].
Proof.
  cbn zeta. split; [reflexivity|].
  destruct (nonempty_cdict_is_mutated answered_session
              [[("Channel", VStr "SIP/100")]] 0 [("Channel", VStr "SIP/100")]
              ping_kwargs) as (_ & _ & H & _).
  - reflexivity.
  - reflexivity.
  - discriminate.
  - repeat constructor. intros H. by apply elem_of_nil in H.
  - rewrite H. reflexivity.
Defined.

(** C10, as stated, fails for an empty dictionary: the call returns
    and the caller's dictionary is still empty; the fields went into
    a new dictionary. *)
Lemma empty_cdict_is_left_alone :
  ∃ self' st' msg,
    send_action answered_session [[]] (Some 0) ping_kwargs = (self', st', Return msg)
    ∧ st' !! 0 = Some []
    ∧ dict_has "ActionID" (deref st' 0) = false
    ∧ dict_get "Action" (deref st' 0) = None
    ∧ st' !! 1 = Some [("Action", VStr "Ping");
                       ("ActionID", VStr "pbx-4242-00000000")].
Proof.
  eexists _, _, _. split; [reflexivity|]. repeat split; reflexivity.
Qed.

(** ** ActionID *)

(** C7: on a connected session, a request whose fields lack
    [ActionID] gets one, made of the host name, the process id and
    the counter as ['%s-%04s-%08x'] prints them; [next_seq] returns
    the counter and adds one to it, so the next such request on the
    session gets the next number. *)
Theorem action_id_assigned_in_sequence (self : Manager) (st : store)
    (cdict : option nat) (kwargs : dict) (cdict2 : option nat) (kwargs2 : dict) :
  is_connected self = true →
  dict_has "ActionID" (field_set st cdict kwargs) = false →
  let r1 := send_action self st cdict kwargs in
  let a1 := (cdict_or_new st cdict).2 in
  dict_has "ActionID" (field_set r1.1.2 cdict2 kwargs2) = false →
  let r2 := send_action r1.1.1 r1.1.2 cdict2 kwargs2 in
  let a2 := (cdict_or_new r1.1.2 cdict2).2 in
  next_seq self = (set_seq (_seq self + 1) self, _seq self)
  ∧ dict_get "ActionID" (deref r1.1.2 a1)
    = Some (VStr (format_ActionID (hostname self) (pid self) (_seq self)))
  ∧ _seq r1.1.1 = (_seq self + 1)%N
  ∧ dict_get "ActionID" (deref r2.1.2 a2)
    = Some (VStr (format_ActionID (hostname self) (pid self) (_seq self + 1)))
  ∧ _seq r2.1.1 = (_seq self + 2)%N
  ∧ (_seq self < _seq r1.1.1 < _seq r2.1.1)%N.
Proof.
  intros Hc H1. cbn zeta.
  destruct (send_action_effect self st cdict kwargs) as (Est & Eseq & Eh & Ep & Ec).
  destruct (send_action_enter_effect self st cdict kwargs Hc)
    as (Est0 & Eseq0 & Eh0 & Ep0 & Ec0).
  unfold field_set in H1. pose proof (cdict_or_new_valid st cdict) as Hlt.
  destruct (cdict_or_new st cdict) as [st0 a] eqn:E0. cbn [fst snd] in *.
  rewrite H1 in Est0, Eseq0. cbn [negb] in Est0, Eseq0.
  assert (_seq (send_action self st cdict kwargs).1.1 = (_seq self + 1)%N) as Hs1
    by (by rewrite Eseq, Eseq0).
  rewrite Est, Est0, Eseq, Eseq0. rewrite Eh0 in Eh. rewrite Ep0 in Ep.
  rewrite Ec0 in Ec. clear Est Est0 Eseq Eseq0 Eh0 Ep0 Ec0.
  set (self1 := (send_action self st cdict kwargs).1.1) in *.
  set (st1 := <[a := _]> st0) in *.
  intros H2.
  destruct (send_action_effect self1 st1 cdict2 kwargs2) as (Fst & Fseq & _).
  destruct (send_action_enter_effect self1 st1 cdict2 kwargs2 Ec)
    as (Fst0 & Fseq0 & _).
  unfold field_set in H2. pose proof (cdict_or_new_valid st1 cdict2) as Hlt2.
  destruct (cdict_or_new st1 cdict2) as [st2 a2] eqn:E2. cbn [fst snd] in *.
  rewrite H2 in Fst0, Fseq0. cbn [negb] in Fst0, Fseq0.
  rewrite Fst, Fst0, Fseq, Fseq0, Eh, Ep, Hs1.
  split; [done|]. split.
  { subst st1. rewrite deref_insert by done. rewrite dict_get_set. by rewrite decide_True. }
  split; [done|]. split.
  { rewrite deref_insert by done. rewrite dict_get_set. by rewrite decide_True. }
  split; lia.
Qed.

Lemma action_id_assigned_in_sequence_witness :
  let r1 := send_action answered_session [] None ping_kwargs in
  let r2 := send_action r1.1.1 r1.1.2 None ping_kwargs in
  is_connected answered_session = true
  ∧ dict_get "ActionID" (deref r1.1.2 0) = Some (VStr "pbx-4242-00000000")
  ∧ dict_get "ActionID" (deref r2.1.2 1) = Some (VStr "pbx-4242-00000001")
  ∧ format_ActionID "pbx" 7 171 = "pbx-   7-000000ab".
Proof.
  cbn zeta. split; [reflexivity|].
  destruct (action_id_assigned_in_sequence answered_session [] None ping_kwargs
              None ping_kwargs eq_refl eq_refl eq_refl)
    as (_ & H1 & _ & H2 & _).
  split; [exact H1|]. split; [exact H2|reflexivity].
Defined.

(** ** Responses *)

(** A caller that waits takes the oldest item of the response queue,
    whatever headers it has; no header is compared with the request. *)
Lemma send_action_wait_takes_oldest (self : Manager) (msg : ManagerMessage)
    (q : list (item ManagerMessage)) :
  _response_queue self = obj msg :: q →
  send_action_wait self
  = (set_response_waiters (tail (_response_waiters self)) (set_response_queue q self),
     Return msg).
Proof. intros Hq. unfold send_action_wait. by rewrite Hq. Qed.

(** With no response yet the caller waits, and the session is unchanged. *)
Lemma send_action_wait_blocks (self : Manager) :
  _response_queue self = [] → send_action_wait self = (self, Blocked).
Proof. intros Hq. unfold send_action_wait. by rewrite Hq. Qed.

(** ** The reader thread *)

Lemma set_greeting_id self : set_greeting (title self) (version self) self = self.
Proof. by destruct self. Qed.

Lemma for_line_exit stream self loc :
  let r := for_line_in_sock stream self loc in
  r.1.2 = set_greeting (title r.1.2) (version r.1.2) self
  ∧ match r.1.1.1 with
    | ForElse => r.1.1.2 = []
    | _ => length r.1.1.2 < length stream
    end
  ∧ (is_connected self = true → r.1.1.1 = ForBreak → lines r.2 ≠ []).
Proof.
  cbn zeta. revert self loc.
  induction stream as [|[line|] stream IH]; intros self loc.
  - cbn. rewrite set_greeting_id. split; [done|]. split; [done|]. by intros _ ?.
  - cbn [for_line_in_sock].
    destruct (negb (truthy (title self)) && contains "/" line && negb (contains ":" line)).
    { cbn. split; [done|]. split; [lia|]. intros _ _. by destruct (lines loc). }
    destruct (String.eqb line EOL && negb (wait_for_marker loc)).
    + cbn [lines]. case_bool_decide as Hl; cbn [negb].
      * destruct (is_connected self) eqn:Hc; cbn [negb].
        -- specialize (IH self (mkLocals (lines loc) false (wait_for_marker loc))).
           destruct IH as (H1 & H2 & H3). split; [done|]. split; [|intros _; by apply H3].
           destruct (for_line_in_sock _ _ _) as [[[[] ?] ?] ?]; cbn in *; try lia; done.
        -- cbn. rewrite set_greeting_id. split; [done|]. split; [lia|]. by intros ?.
      * cbn. rewrite set_greeting_id. split; [done|]. split; [lia|]. by intros _ _.
    + destruct (is_connected self) eqn:Hc; cbn [negb].
      * specialize (IH self (accumulate line loc)).
        destruct IH as (H1 & H2 & H3). split; [done|]. split; [|intros _; by apply H3].
        destruct (for_line_in_sock _ _ _) as [[[[] ?] ?] ?]; cbn in *; try lia; done.
      * cbn. rewrite set_greeting_id. split; [done|]. split; [lia|]. by intros ?.
  - cbn. rewrite set_greeting_id. split; [done|]. split; [lia|]. by intros _ ?.
Qed.

Lemma receive_pass_effect self sk loc :
  _sock self = Some sk → is_connected self = true →
  ∃ self' loc',
    _receive_data_pass self loc = Some (self', loc')
    ∧ is_running self' = is_running self
    ∧ _response_queue self' = _response_queue self
    ∧ _event_queue self' = _event_queue self
    ∧ ((is_connected self' = true
        ∧ (∃ group, group ≠ [] ∧ _message_queue self' = _message_queue self ++ [obj group])
        ∧ errors_in_threads self' = errors_in_threads self
        ∧ ∃ sk', _sock self' = Some sk' ∧ length (incoming sk') < length (incoming sk))
       ∨ (is_connected self' = false
          ∧ _message_queue self' = _message_queue self ++ [sentinel]
          ∧ (∃ msg, errors_in_threads self' = errors_in_threads self ++ [msg])
          ∧ ∃ sk', _sock self' = Some sk' ∧ closed sk' = true)).
Proof.
  intros Hsock Hc. unfold _receive_data_pass. rewrite Hsock.
  pose proof (for_line_exit (incoming sk) self
                (mkLocals [] (multiline loc) (wait_for_marker loc))) as H.
  cbn zeta in H.
  destruct (for_line_in_sock _ _ _) as [[[ex rest] self1] loc1].
  cbn [fst snd] in H. destruct H as (H1 & H2 & H3). specialize (H3 Hc).
  assert (is_connected self1 = true) as Hc1 by (rewrite H1; exact Hc).
  assert (is_running self1 = is_running self) as Hr1 by (by rewrite H1).
  assert (_response_queue self1 = _response_queue self) as Hq1 by (by rewrite H1).
  assert (_event_queue self1 = _event_queue self) as He1 by (by rewrite H1).
  assert (_message_queue self1 = _message_queue self) as Hm1 by (by rewrite H1).
  assert (errors_in_threads self1 = errors_in_threads self) as Her1 by (by rewrite H1).
  clear H1. destruct ex.
  - specialize (H3 eq_refl). rewrite bool_decide_eq_false_2 by done. cbn [negb].
    unfold is_connected in *. cbn. rewrite Hc1. eexists _, _. split; [done|].
    cbn. repeat split; try done. left. repeat split; try done.
    + by exists (lines loc1); rewrite Hm1.
    + eexists. split; [done|]. cbn. exact H2.
  - destruct (bool_decide (lines loc1 = [])); cbn [negb];
      (eexists _, _; split; [done|]); cbn; repeat split; try done;
      right; rewrite Hm1, Her1; repeat split; eauto.
  - eexists _, _. split; [done|]. cbn. repeat split; try done.
    right. rewrite Hm1, Her1. repeat split; eauto.
Qed.

Lemma receive_loop_ends n self sk loc :
  _sock self = Some sk → length (incoming sk) < n →
  is_running self = true → is_connected self = true →
  ∃ groups self',
    _receive_data_loop n self loc = Some self'
    ∧ is_connected self' = false
    ∧ is_running self' = true
    ∧ Forall (λ g, g ≠ []) groups
    ∧ _message_queue self' = _message_queue self ++ (obj <$> groups) ++ [sentinel]
    ∧ length (errors_in_threads self') = S (length (errors_in_threads self))
    ∧ _response_queue self' = _response_queue self
    ∧ _event_queue self' = _event_queue self
    ∧ ∃ sk', _sock self' = Some sk' ∧ closed sk' = true.
Proof.
  revert self sk loc. induction n as [|n IH]; intros self sk loc Hsock Hlen Hr Hc; [lia|].
  cbn [_receive_data_loop]. rewrite Hr, Hc. cbn [andb negb].
  destruct (receive_pass_effect self sk loc Hsock Hc)
    as (self1 & loc1 & -> & Hr1 & Hq1 & He1 & Hcase).
  destruct Hcase as [(Hc1 & (g & Hg & Hm1) & Her1 & sk1 & Hs1 & Hl1)
                    |(Hc1 & Hm1 & (msg & Her1) & Hsk1)].
  - destruct (IH self1 sk1 loc1 Hs1) as (gs & self2 & -> & ? & ? & ? & Hm2 & He2 & ? & ? & ?);
      [lia|congruence|done|].
    exists (g :: gs), self2. repeat split; try done; try congruence.
    + by constructor.
    + rewrite Hm2, Hm1. cbn. by rewrite <- app_assoc.
  - exists [], self1. split.
    { destruct n; cbn [_receive_data_loop]; by rewrite Hc1, andb_false_r. }
    repeat split; try done; try congruence.
    rewrite Her1, length_app. cbn. lia.
Qed.

(** X1: on a running, connected session whose socket file holds a
    finite stream, [_receive_data] ends as soon as it may make more
    passes than there are lines left.  The session is then no longer
    connected and its socket file is closed; the message queue has
    received the groups read, none of them empty, and then exactly
    one sentinel; one error message was recorded; the response and
    event queues were not touched. *)
Theorem receive_data_ends_with_sentinel (self : Manager) (sk : SocketFile) (fuel : nat) :
  _sock self = Some sk →
  is_running self = true →
  is_connected self = true →
  length (incoming sk) < fuel →
  ∃ groups self',
    _receive_data fuel self = Some self'
    ∧ is_connected self' = false
    ∧ is_running self' = true
    ∧ Forall (λ g, g ≠ []) groups
    ∧ _message_queue self' = _message_queue self ++ (obj <$> groups) ++ [sentinel]
    ∧ length (errors_in_threads self') = S (length (errors_in_threads self))
    ∧ _response_queue self' = _response_queue self
    ∧ _event_queue self' = _event_queue self
    ∧ ∃ sk', _sock self' = Some sk' ∧ closed sk' = true.
Proof.
  intros Hsock Hr Hc Hlen. unfold _receive_data.
  by apply (receive_loop_ends fuel self sk).
Qed.

(** ** Ordinary groups *)

Lemma accumulate_ordinary line loc :
  is_follows line = false → wait_for_marker loc = false →
  ∃ b, accumulate line loc = mkLocals (lines loc ++ [line]) b false.
Proof.
  unfold is_follows. intros Hf Hw. unfold accumulate. rewrite Hw.
  rewrite <- andb_assoc, Hf, andb_false_r.
  destruct (_ && startswith line END_COMMAND); eauto.
Qed.

Lemma for_line_ordinary (hs : list string) stream self loc :
  is_connected self = true → wait_for_marker loc = false →
  Forall (λ l, ordinary_line self l = true) hs →
  ∃ b, for_line_in_sock ((RLine <$> hs) ++ stream) self loc
       = for_line_in_sock stream self (mkLocals (lines loc ++ hs) b false).
Proof.
  intros Hc. revert loc. induction hs as [|line hs IH]; intros loc Hw Hall.
  - exists (multiline loc). cbn. rewrite app_nil_r. destruct loc; cbn in *. by subst.
  - apply Forall_cons in Hall as [Hline Hall]. unfold ordinary_line in Hline.
    apply andb_true_iff in Hline as [[He%negb_true_iff Hf%negb_true_iff]%andb_true_iff Hb].
    destruct (accumulate_ordinary line loc Hf Hw) as [b Hacc].
    cbn [fmap list_fmap app for_line_in_sock].
    assert (negb (truthy (title self)) && contains "/" line && negb (contains ":" line)
            = false) as ->.
    { unfold banner_like in Hb. rewrite <- andb_assoc.
      destruct (truthy (title self)); [done|]. cbn in *. by apply negb_true_iff in Hb. }
    rewrite He, Hacc, Hc. cbn [andb negb].
    destruct (IH (mkLocals (lines loc ++ [line]) b false) eq_refl Hall) as [b' ->].
    cbn [lines]. rewrite <- app_assoc. cbn [app]. by exists b'.
Qed.

Lemma for_line_blank n stream self loc :
  is_connected self = true → wait_for_marker loc = false → lines loc = [] →
  for_line_in_sock ((RLine <$> replicate n EOL) ++ stream) self loc
  = for_line_in_sock stream self
      (mkLocals [] (match n with O => multiline loc | _ => false end) false).
Proof.
  intros Hc. revert loc. induction n as [|n IH]; intros loc Hw Hl.
  - cbn. destruct loc; cbn in *. by subst.
  - cbn [replicate fmap list_fmap app for_line_in_sock].
    change (contains "/" EOL) with false. rewrite andb_false_r. cbn [andb].
    rewrite String.eqb_refl, Hw, Hl. cbn [andb negb lines wait_for_marker].
    rewrite bool_decide_eq_true_2 by done. cbn [negb]. rewrite Hc. cbn [negb].
    rewrite IH by done. by destruct n.
Qed.

(** X2: blank lines before a group are skipped, and lines that are
    not blank, do not announce command output and are not taken for
    the banner are collected up to the next blank line: they are put
    on the message queue as one group, the blank line is consumed,
    both flags are cleared, and the body of the message built from
    the group is made of its lines from the first non-header one on. *)
Theorem ordinary_group_framed (self : Manager) (sk : SocketFile) (loc : locals)
    (n : nat) (hs : list string) (rest : list sock_read) :
  _sock self = Some sk →
  incoming sk = (RLine <$> replicate n EOL) ++ (RLine <$> hs) ++ RLine EOL :: rest →
  is_connected self = true →
  wait_for_marker loc = false →
  hs ≠ [] →
  Forall (λ l, ordinary_line self l = true) hs →
  _receive_data_pass self loc
  = Some (put_message (obj hs)
            (set_sock (Some (mkSocketFile rest (written sk) (closed sk) (write_error sk)))
               self),
          mkLocals hs false false)
  ∧ data (ManagerMessage_init hs) = join (body_lines hs).
Proof.
  intros Hsock Hin Hc Hw Hne Hall. split; [|apply init_data].
  unfold _receive_data_pass. rewrite Hsock, Hin.
  rewrite for_line_blank by done. cbn [multiline].
  destruct (for_line_ordinary hs (RLine EOL :: rest) self
              (mkLocals [] match n with O => multiline loc | _ => false end false)
              Hc eq_refl Hall) as [b ->].
  cbn [lines app for_line_in_sock].
  change (contains "/" EOL) with false. rewrite andb_false_r. cbn [andb].
  rewrite String.eqb_refl. cbn [andb negb wait_for_marker lines].
  rewrite bool_decide_eq_false_2 by done. cbn [negb lines].
  rewrite bool_decide_eq_false_2 by done. cbn [negb].
  unfold is_connected in *. cbn. by rewrite Hc.
Qed.

(** X3: when the stream ends inside a group, the lines collected are
    not delivered: the socket file is closed, the session is marked
    not connected, and the message queue receives the sentinel, with
    the error [Received lines but are not connected]. *)
Theorem truncated_group_dropped (self : Manager) (sk : SocketFile) (loc : locals)
    (hs : list string) :
  _sock self = Some sk →
  incoming sk = RLine <$> hs →
  is_connected self = true →
  wait_for_marker loc = false →
  hs ≠ [] →
  Forall (λ l, ordinary_line self l = true) hs →
  ∃ loc',
    _receive_data_pass self loc
    = Some (put_error "Received lines but are not connected"
              (put_message sentinel
                 (set_connected false
                    (set_sock (Some (mkSocketFile [] (written sk) true (write_error sk)))
                       self))),
            loc')
    ∧ lines loc' = hs.
Proof.
  intros Hsock Hin Hc Hw Hne Hall.
  unfold _receive_data_pass. rewrite Hsock, Hin.
  destruct (for_line_ordinary hs [] self
              (mkLocals [] (multiline loc) (wait_for_marker loc)) Hc Hw Hall) as [b Hb].
  rewrite app_nil_r in Hb. rewrite Hb. cbn [for_line_in_sock lines app].
  rewrite bool_decide_eq_false_2 by done. cbn [negb].
  eexists. split.
  - cbn. reflexivity.
  - reflexivity.
Qed.

(** ** Routing and shutdown *)

Lemma message_loop_body_routes self g q :
  _message_queue self = obj g :: q →
  let msg := ManagerMessage_init g in
  message_loop_body self
  = (if is_event_message msg
     then put_event (obj (to_event msg)) (set_message_queue q self)
     else put_response (obj msg) (set_message_queue q self), Continue)
  ∧ (is_event_message msg = false → has_header (headers msg) "Response" = true).
Proof.
  intros Hq. cbn zeta. pose proof (init_classified g) as Hc.
  unfold message_loop_body, is_event_message, Event_init, to_event. rewrite Hq.
  unfold classify in Hc.
  destruct (has_header (headers (ManagerMessage_init g)) "Event"); cbn [negb]; [done|].
  destruct (has_header (headers (ManagerMessage_init g)) "Response"); done.
Qed.

(** X4: [message_loop] on a queue of groups (no sentinel among them)
    takes them all and then waits: every message built goes to
    exactly one queue, the event messages to the event queue and the
    others, which all have a [Response] header, to the response
    queue, each queue keeping the order of arrival; nothing is
    recorded as an error. *)
Theorem message_loop_routes_in_order (self : Manager) (groups : list (list string))
    (fuel : nat) :
  is_running self = true →
  _message_queue self = obj <$> groups →
  length groups < fuel →
  let msgs := ManagerMessage_init <$> groups in
  message_loop fuel self
  = (set_response_queue
       (_response_queue self
        ++ (obj <$> filter (λ m, is_event_message m = false) msgs))
       (set_event_queue
          (_event_queue self
           ++ (obj ∘ to_event <$> filter (λ m, is_event_message m = true) msgs))
          (set_message_queue [] self)),
     Waiting)
  ∧ Forall (λ m, is_event_message m = false → has_header (headers m) "Response" = true)
           msgs.
Proof.
  cbn zeta. revert self fuel.
  induction groups as [|g gs IH]; intros self fuel Hr Hq Hlen.
  - destruct fuel as [|fuel]; [cbn in Hlen; lia|]. split; [|constructor].
    cbn [message_loop]. rewrite Hr. cbn [negb]. unfold message_loop_body. rewrite Hq.
    cbn. rewrite !app_nil_r. destruct self; cbn in *. by subst.
  - destruct fuel as [|fuel]; [cbn in Hlen; lia|]. cbn in Hlen.
    destruct (message_loop_body_routes self g (fmap (M:=list) obj gs) Hq) as [Hbody Hresp].
    cbn zeta in Hbody, Hresp.
    cbn [message_loop]. rewrite Hr. cbn [negb]. rewrite Hbody.
    rewrite (fmap_cons ManagerMessage_init), !filter_cons.
    destruct (is_event_message (ManagerMessage_init g)) eqn:He.
    + destruct (IH (put_event (obj (to_event (ManagerMessage_init g)))
                      (set_message_queue (obj <$> gs) self)) fuel) as [-> Hall];
        [done|done|lia|].
      split; [|constructor; [intros ?; first [congruence|by apply Hresp]|exact Hall]].
      rewrite decide_False, decide_True by done. cbn. by rewrite <- app_assoc.
    + destruct (IH (put_response (obj (ManagerMessage_init g))
                      (set_message_queue (obj <$> gs) self)) fuel) as [-> Hall];
        [done|done|lia|].
      split; [|constructor; [intros ?; first [congruence|by apply Hresp]|exact Hall]].
      rewrite decide_True, decide_False by done. cbn. by rewrite <- app_assoc.
Qed.

Lemma resume_waiters_sentinels n self q :
  _response_queue self = replicate n sentinel ++ q →
  resume_waiters n self
  = (set_response_waiters (drop n (_response_waiters self)) (set_response_queue q self),
     replicate n (Raise (ManagerSocketException 0 "Connection Terminated"))).
Proof.
  revert self. induction n as [|n IH]; intros self Hq.
  - cbn in *. rewrite drop_0. destruct self; cbn in *. by subst.
  - cbn [resume_waiters replicate]. unfold send_action_wait. rewrite Hq. cbn [replicate app].
    rewrite IH by done. cbn.
    destruct (_response_waiters self); cbn; by rewrite ?drop_nil.
Qed.

Section Shutdown.
Context {World : Type}.
Variable call : handler → Event → Manager * World → Manager * World * bool.

(** X5: shutdown end to end.  When the sentinel reaches
    [message_loop] while [N] callers wait in [send_action] and the
    response and event queues are empty, the loop ends, each of the
    [N] callers raises [ManagerSocketException(0, 'Connection
    Terminated')], the list of waiters and the response queue are
    empty again, and [event_dispatch] takes its sentinel and ends
    without calling a handler. *)
Theorem shutdown_reaches_every_waiter (self : Manager) (w : World)
    (q : list (item (list string))) (fuel fuel' : nat) :
  is_running self = true →
  _message_queue self = sentinel :: q →
  _response_queue self = [] →
  _event_queue self = [] →
  let N := length (_response_waiters self) in
  ∃ self1 self2,
    message_loop (S fuel) self = (self1, Done)
    ∧ resume_waiters N self1
      = (self2, replicate N (Raise (ManagerSocketException 0 "Connection Terminated")))
    ∧ _response_queue self2 = []
    ∧ _response_waiters self2 = []
    ∧ event_dispatch call (S fuel') (self2, w)
      = ((set_event_queue [] self2, w), [], Done).
Proof.
  intros Hr Hq Hrq Heq. cbn zeta.
  set (self1 := set_response_queue
                  (replicate (length (_response_waiters self)) sentinel)
                  (set_event_queue [sentinel] (set_message_queue q self))).
  exists self1, (set_response_waiters [] (set_response_queue [] self1)).
  split.
  { cbn [message_loop]. rewrite Hr. cbn [negb]. unfold message_loop_body.
    rewrite Hq, foldl_put_sentinel. subst self1. cbn.
    unfold put_event. cbn. by rewrite Hrq, Heq. }
  split.
  { rewrite (resume_waiters_sentinels _ self1 []) by (subst self1; cbn; by rewrite app_nil_r).
    subst self1. cbn. by rewrite drop_all. }
  split; [done|]. split; [done|].
  subst self1. cbn. unfold is_running in Hr. by rewrite Hr.
Qed.

End Shutdown.

(** ** Requests *)

Lemma concat_cons_ne sep x (xs : list string) :
  xs ≠ [] → String.concat sep (x :: xs) = x +:+ sep +:+ String.concat sep xs.
Proof. by destruct xs. Qed.

Lemma join_with_lines (ls : list string) :
  join_with EOL (ls ++ [EOL]) = join ((λ l, l +:+ EOL) <$> ls) +:+ EOL.
Proof.
  unfold join_with. induction ls as [|x ls IH]; [done|].
  change ((x :: ls) ++ [EOL]) with (x :: (ls ++ [EOL])).
  rewrite concat_cons_ne by (by destruct ls). rewrite IH.
  rewrite fmap_cons, join_cons. by rewrite !append_assoc.
Qed.

Lemma send_action_enter_ok self sk st cdict kwargs :
  is_connected self = true →
  _sock self = Some sk → closed sk = false → write_error sk = None →
  let st0 := (cdict_or_new st cdict).1 in
  let a := (cdict_or_new st cdict).2 in
  let d1 := dict_update (deref st0 a) kwargs in
  let stamped := negb (dict_has "ActionID" d1) in
  let d2 := if stamped
            then dict_set "ActionID"
                   (VStr (format_ActionID (hostname self) (pid self) (_seq self))) d1
            else d1 in
  send_action_enter self st cdict kwargs
  = (set_response_waiters (1%Z :: _response_waiters self)
       (set_sock (Some (mkSocketFile (incoming sk)
                          (written sk ++ [join_with EOL (command_lines d2 ++ [EOL])])
                          false None))
          (if stamped then set_seq (_seq self + 1) self else self)),
     <[a := d2]> st0, Return ()).
Proof.
  intros Hc Hsock Hcl Hwe. cbn zeta. pose proof (cdict_or_new_valid st cdict) as Hlt.
  unfold send_action_enter. destruct (cdict_or_new st cdict) as [st0 a].
  cbn [fst snd] in *. rewrite Hc. cbn [negb].
  rewrite deref_insert by done.
  destruct (dict_has "ActionID" (dict_update (deref st0 a) kwargs)); cbn [negb].
  - rewrite Hsock. unfold sock_write. rewrite Hcl, Hwe.
    rewrite deref_insert by done. reflexivity.
  - cbn [next_seq]. rewrite list_insert_insert_eq.
    change (_sock (set_seq (_seq self + 1) self)) with (_sock self). rewrite Hsock.
    unfold sock_write. rewrite Hcl, Hwe. rewrite deref_insert by done. reflexivity.
Qed.

(** X6: a request on a connected session whose socket file accepts
    the write.  What is written is one line [Key: Value] per field
    (one per item of a list value), each ended by CRLF, and then an
    empty line.  With no response queued the caller waits, counted
    once in [_response_waiters]; with one queued the caller gets it,
    or [ManagerSocketException(0, 'Connection Terminated')] when it
    is the sentinel, the response is removed from the queue and the
    list of waiters is as before the call. *)
Theorem send_action_exchange (self : Manager) (sk : SocketFile) (st : store)
    (cdict : option nat) (kwargs : dict) :
  is_connected self = true →
  _sock self = Some sk →
  closed sk = false →
  write_error sk = None →
  let r := send_action self st cdict kwargs in
  let fields := deref r.1.2 (cdict_or_new st cdict).2 in
  _sock r.1.1
  = Some (mkSocketFile (incoming sk)
            (written sk ++ [join ((λ l, l +:+ EOL) <$> command_lines fields) +:+ EOL])
            false None)
  ∧ match _response_queue self with
    | [] => r.2 = Blocked
            ∧ _response_waiters r.1.1 = 1%Z :: _response_waiters self
    | x :: q =>
        r.2 = match x with
              | obj msg => Return msg
              | sentinel => Raise (ManagerSocketException 0 "Connection Terminated")
              end
        ∧ _response_queue r.1.1 = q
        ∧ _response_waiters r.1.1 = _response_waiters self
    end.
Proof.
  intros Hc Hsock Hcl Hwe. cbn zeta. pose proof (cdict_or_new_valid st cdict) as Hlt.
  unfold send_action.
  rewrite (send_action_enter_ok self sk st cdict kwargs Hc Hsock Hcl Hwe).
  rewrite join_with_lines. unfold send_action_wait.
  set (self1 := if negb _ then set_seq _ self else self).
  assert (_response_queue self1 = _response_queue self
          ∧ _response_waiters self1 = _response_waiters self) as [Hq Hw].
  { subst self1. by destruct (negb _). }
  cbn [_response_queue set_response_waiters set_sock].
  rewrite Hq. destruct (_response_queue self) as [|[|msg] q]; cbn [fst snd];
    rewrite deref_insert by done; cbn; rewrite ?Hw; done.
Qed.


(** X8: on a session that is not connected [send_action] raises
    [ManagerException('Not connected')] before it touches anything:
    the session is unchanged and so is every dictionary the caller
    holds. *)
Theorem send_action_not_connected (self : Manager) (st : store)
    (cdict : option nat) (kwargs : dict) :
  is_connected self = false →
  let r := send_action self st cdict kwargs in
  r.2 = Raise (ManagerException "Not connected")
  ∧ r.1.1 = self
  ∧ (∀ a d, st !! a = Some d → r.1.2 !! a = Some d).
Proof.
  intros Hc. cbn zeta. unfold send_action, send_action_enter.
  assert (∀ a d, st !! a = Some d → (cdict_or_new st cdict).1 !! a = Some d) as Hst.
  { intros a d Ha. unfold cdict_or_new.
    destruct cdict as [c|]; [case_bool_decide|]; cbn; try done;
      by apply lookup_app_l_Some. }
  destruct (cdict_or_new st cdict) as [st0 a]. rewrite Hc. cbn. done.
Qed.

Lemma send_action_answered self sk st cdict kwargs x q :
  is_connected self = true →
  _sock self = Some sk → closed sk = false → write_error sk = None →
  _response_queue self = x :: q →
  let r := send_action self st cdict kwargs in
  r.2 = match x with
        | obj msg => Return msg
        | sentinel => Raise (ManagerSocketException 0 "Connection Terminated")
        end
  ∧ is_connected r.1.1 = true
  ∧ (∃ command, _sock r.1.1
                = Some (mkSocketFile (incoming sk) (written sk ++ [command]) false None))
  ∧ _response_queue r.1.1 = q
  ∧ _response_waiters r.1.1 = _response_waiters self.
Proof.
  intros Hc Hsock Hcl Hwe Hq. cbn zeta. unfold send_action.
  rewrite (send_action_enter_ok self sk st cdict kwargs Hc Hsock Hcl Hwe).
  unfold send_action_wait.
  set (self1 := if negb _ then set_seq _ self else self).
  assert (_response_queue self1 = _response_queue self
          ∧ _response_waiters self1 = _response_waiters self
          ∧ is_connected self1 = true) as (Hq1 & Hw1 & Hc1).
  { subst self1. by destruct (negb _). }
  clearbody self1.
  cbn [_response_queue set_response_waiters set_sock].
  rewrite Hq1, Hq. unfold is_connected in *.
  destruct x; cbn; (split; [done|]); (split; [done|]); (split; [eauto|]); done.
Qed.

(** X9: two requests made one after the other on a session that
    holds two responses get them in queue order, whatever their
    headers; both commands were written, in order, and the list of
    waiters is as before. *)
Theorem send_action_twice_in_order (self : Manager) (sk : SocketFile) (st : store)
    (cdict1 : option nat) (kwargs1 : dict) (cdict2 : option nat) (kwargs2 : dict)
    (A B : ManagerMessage) (q : list (item ManagerMessage)) :
  is_connected self = true →
  _sock self = Some sk →
  closed sk = false →
  write_error sk = None →
  _response_queue self = obj A :: obj B :: q →
  let r1 := send_action self st cdict1 kwargs1 in
  let r2 := send_action r1.1.1 r1.1.2 cdict2 kwargs2 in
  r1.2 = Return A
  ∧ r2.2 = Return B
  ∧ _response_queue r2.1.1 = q
  ∧ _response_waiters r2.1.1 = _response_waiters self
  ∧ ∃ c1 c2, _sock r2.1.1
             = Some (mkSocketFile (incoming sk) (written sk ++ [c1; c2]) false None).
Proof.
  intros Hc Hsock Hcl Hwe Hq. cbn zeta.
  destruct (send_action_answered self sk st cdict1 kwargs1 (obj A) (obj B :: q)
              Hc Hsock Hcl Hwe Hq) as (H1 & Hc1 & (c1 & Hs1) & Hq1 & Hw1).
  destruct (send_action_answered _ _ (send_action self st cdict1 kwargs1).1.2
              cdict2 kwargs2 (obj B) q Hc1 Hs1 eq_refl eq_refl Hq1)
    as (H2 & _ & (c2 & Hs2) & Hq2 & Hw2).
  split; [done|]. split; [done|]. split; [done|]. split; [congruence|].
  exists c1, c2. rewrite Hs2. cbn. by rewrite <- app_assoc.
Qed.

(** ** Requests read back *)

Lemma command_lines_fields d :
  command_lines d = (λ f, f.1 +:+ ": " +:+ f.2) <$> fields_of d.
Proof.
  unfold command_lines, fields_of. induction d as [|[k v] d IH]; [done|].
  cbn [flat_map]. rewrite fmap_app, <- IH. f_equal.
  destruct v as [s|l]; cbn; [done|]. by rewrite <- list_fmap_compose.
Qed.

Lemma endswith_refl s : endswith s s = true.
Proof. destruct s; cbn [endswith]; by rewrite String.eqb_refl. Qed.

Lemma endswith_append s t : endswith (s +:+ t) t = true.
Proof.
  induction s as [|a s IH]; [apply endswith_refl|].
  rewrite append_cons. cbn [endswith]. rewrite IH.
  by destruct (String.eqb (String a (s +:+ t)) t).
Qed.

Lemma before_append c k rest :
  contains (String c "") k = false → before c (k +:+ String c rest) = k.
Proof.
  induction k as [|a k IH]; intros H.
  - change (before c (String c rest) = ""). cbn. by rewrite Ascii.eqb_refl.
  - rewrite contains_char_cons in H. apply orb_false_iff in H as [Ha Hk].
    rewrite append_cons. cbn [before]. rewrite Ha. by rewrite IH.
Qed.

Lemma after_append c k rest :
  contains (String c "") k = false → after c (k +:+ String c rest) = rest.
Proof.
  induction k as [|a k IH]; intros H.
  - change (after c (String c rest) = rest). cbn. by rewrite Ascii.eqb_refl.
  - rewrite contains_char_cons in H. apply orb_false_iff in H as [Ha Hk].
    rewrite append_cons. cbn [after]. rewrite Ha. by rewrite IH.
Qed.

Lemma lstrip_length s : (String.length (lstrip s) <= String.length s)%nat.
Proof.
  induction s as [|a s IH]; [done|]. cbn [lstrip].
  destruct (isspace a); cbn [String.length]; lia.
Qed.

Lemma rstrip_length s : (String.length (rstrip s) <= String.length s)%nat.
Proof.
  induction s as [|a s IH]; [done|]. cbn [rstrip].
  destruct (isspace a && String.eqb (rstrip s) ""); cbn [String.length]; lia.
Qed.

Lemma rstrip_append_EOL s : rstrip (s +:+ EOL) = rstrip s.
Proof.
  induction s as [|a s IH]; [reflexivity|].
  rewrite append_cons. cbn [rstrip]. by rewrite IH.
Qed.

Lemma strip_fixed_head a s : strip (String a s) = String a s → isspace a = false.
Proof.
  intros H. destruct (isspace a) eqn:Ha; [|done].
  unfold strip in H. cbn [lstrip] in H. rewrite Ha in H.
  apply (f_equal String.length) in H. cbn [String.length] in H.
  pose proof (rstrip_length (lstrip s)). pose proof (lstrip_length s). lia.
Qed.

Lemma strip_sent_value v : strip v = v → strip (" " +:+ v +:+ EOL) = v.
Proof.
  intros H. destruct v as [|a v]; [reflexivity|].
  pose proof (strip_fixed_head a v H) as Ha.
  unfold strip in *. cbn [lstrip] in H. rewrite Ha in H.
  change (" " +:+ String a v +:+ EOL) with (String " " (String a (v +:+ EOL))).
  cbn [lstrip]. change (isspace " ") with true. cbn iota. rewrite Ha.
  change (String a (v +:+ EOL)) with (String a v +:+ EOL).
  by rewrite rstrip_append_EOL.
Qed.

Lemma clean_field_line f :
  clean_field f = true →
  let line := (f.1 +:+ ": " +:+ f.2) +:+ EOL in
  is_header_line line = true ∧ header_of line = f.
Proof.
  destruct f as [k v]. unfold clean_field. cbn [fst snd].
  intros [[Hc%negb_true_iff Hk%String.eqb_eq]%andb_true_iff Hv%String.eqb_eq]%andb_true_iff.
  cbn zeta. split.
  - unfold is_header_line. rewrite endswith_append. cbn [andb].
    rewrite append_assoc. by apply contains_append.
  - unfold header_of. rewrite !append_assoc.
    change (": " +:+ v +:+ EOL) with (String ":" (" " +:+ v +:+ EOL)).
    rewrite before_append, after_append by done.
    by rewrite Hk, strip_sent_value.
Qed.

(** X10: the lines [send_action] writes for a request are read back
    by [parse] as the same fields, provided no key has a colon and no
    key or value has white space around it: nothing is left as body,
    [multiheaders] holds for each key its values in the order sent
    (the items of a list value included) and [headers] the last of
    them. *)
Theorem request_lines_parse_back (d : dict) :
  Forall (λ f, clean_field f = true) (fields_of d) →
  let resp := (λ l, l +:+ EOL) <$> command_lines d in
  let msg := parse (blank_message resp) resp in
  data msg = ""
  ∧ (∀ k, headers msg !! k = last (values_of k (fields_of d)))
  ∧ (∀ k, multiheaders msg !! k = match values_of k (fields_of d) with
                                  | [] => None
                                  | vs => Some vs
                                  end).
Proof.
  intros Hall. cbn zeta. rewrite command_lines_fields, <- list_fmap_compose.
  set (resp := _ <$> fields_of d).
  assert (header_lines resp = resp ∧ body_lines resp = []
          ∧ header_of <$> resp = fields_of d) as (Hh & Hb & Hkv).
  { subst resp. induction Hall as [|f fs Hf _ (IH1 & IH2 & IH3)]; [done|].
    destruct (clean_field_line f Hf) as [Hl Ho]. cbn zeta in Hl, Ho.
    cbn [fmap list_fmap header_lines body_lines compose].
    cbn [compose] in *. rewrite Hl, Ho. by rewrite IH1, IH3. }
  pose proof (parse_loop_spec resp ∅ ∅) as H. cbn zeta in H.
  unfold parse, blank_message. cbn [headers multiheaders].
  destruct (parse_loop resp ∅ ∅) as [[h mh] dd]. destruct H as (-> & Hhd & Hmh).
  cbn [data headers multiheaders]. rewrite Hb. split; [done|]. split; intros k.
  - rewrite Hhd, Hh, Hkv, lookup_empty. by destruct (last _).
  - rewrite Hmh, Hh, Hkv, lookup_empty. by destruct (values_of k _).
Qed.

(** ** Registry and message invariants *)

Lemma list_remove_None x l : x ∉ l → list_remove x l = None.
Proof.
  induction l as [|y l IH]; intros H; [done|]. cbn [list_remove].
  apply not_elem_of_cons in H as [Hne Hl]. rewrite bool_decide_eq_false_2 by done.
  by rewrite IH.
Qed.

Lemma list_remove_first x l1 l2 :
  x ∉ l1 → list_remove x (l1 ++ x :: l2) = Some (l1 ++ l2).
Proof.
  induction l1 as [|y l1 IH]; intros H; cbn [app list_remove].
  - by rewrite bool_decide_eq_true_2.
  - apply not_elem_of_cons in H as [Hne Hl]. rewrite bool_decide_eq_false_2 by done.
    by rewrite IH.
Qed.

(** X11: [unregister_event] for a handler that is not registered
    under the event (or an event with no handler at all) raises
    [ValueError] and leaves the registry unchanged. *)
Theorem unregister_unknown_raises (self : Manager) (event : string) (f : handler) :
  f ∉ default [] (_event_callbacks self !! event) →
  unregister_event event f self = (self, Raise (BuiltinError "ValueError")).
Proof.
  intros H. unfold unregister_event. by rewrite list_remove_None.
Qed.

(** X12: [unregister_event] removes the oldest registration of the
    handler under the event and only that one; the other handlers
    keep their order and the other events are unchanged. *)
Theorem unregister_removes_first (self : Manager) (event : string) (f : handler)
    (l1 l2 : list handler) :
  _event_callbacks self !! event = Some (l1 ++ f :: l2) →
  f ∉ l1 →
  let r := unregister_event event f self in
  r.2 = Return ()
  ∧ _event_callbacks r.1 !! event = Some (l1 ++ l2)
  ∧ (∀ e, e ≠ event → _event_callbacks r.1 !! e = _event_callbacks self !! e).
Proof.
  intros Hl Hf. cbn zeta. unfold unregister_event. rewrite Hl. cbn [from_option id].
  rewrite list_remove_first by done. cbn. split; [done|].
  split; [by rewrite lookup_insert_eq|]. intros e He. by rewrite lookup_insert_ne.
Qed.

(** X13: registering a handler that was not registered under the
    event and unregistering it again leaves, for every event, the
    list of handlers the dispatcher calls as it was. *)
Theorem register_then_unregister (self : Manager) (event : string) (f : handler)
    (ev : Event) :
  f ∉ default [] (_event_callbacks self !! event) →
  let r := unregister_event event f (register_event event f self) in
  r.2 = Return ()
  ∧ callbacks_for r.1 ev = callbacks_for self ev.
Proof.
  intros Hf. cbn zeta. unfold unregister_event, register_event. cbn.
  rewrite lookup_insert_eq. cbn [from_option id].
  rewrite <- (app_nil_r (default [] (_event_callbacks self !! event) ++ [f])).
  rewrite <- app_assoc. cbn [app]. rewrite list_remove_first by done.
  rewrite app_nil_r. cbn. split; [done|].
  unfold callbacks_for. cbn. rewrite insert_insert_eq.
  assert (∀ k, default [] (<[event := default [] (_event_callbacks self !! event)]>
                             (_event_callbacks self) !! k)
               = default [] (_event_callbacks self !! k)) as H.
  { intros k. destruct (decide (event = k)) as [->|Hne].
    - by rewrite lookup_insert_eq.
    - by rewrite lookup_insert_ne. }
  by rewrite !H.
Qed.

(** The two dictionaries of a message agree. *)
Lemma with_generated_agree k v msg :
  (∀ j, headers msg !! j = multiheaders msg !! j ≫= last) →
  ∀ j, headers (with_generated k v msg) !! j
       = multiheaders (with_generated k v msg) !! j ≫= last.
Proof.
  intros H j. cbn [with_generated headers multiheaders].
  destruct (decide (k = j)) as [->|Hne].
  - by rewrite !lookup_insert_eq.
  - by rewrite !lookup_insert_ne.
Qed.

(** X14: in every message built from a group, synthesized header
    included, [headers] and [multiheaders] have the same keys, no
    list of [multiheaders] is empty, and the value in [headers] is
    the last one of the list in [multiheaders]. *)
Theorem headers_agree_with_multiheaders (resp : list string) :
  let msg := ManagerMessage_init resp in
  (∀ k, headers msg !! k = multiheaders msg !! k ≫= last)
  ∧ (∀ k vs, multiheaders msg !! k = Some vs → vs ≠ []).
Proof.
  cbn zeta.
  assert ((∀ k, headers (parse (blank_message resp) resp) !! k
                = multiheaders (parse (blank_message resp) resp) !! k ≫= last)
          ∧ (∀ k vs, multiheaders (parse (blank_message resp) resp) !! k = Some vs
                     → vs ≠ [])) as [Hp1 Hp2].
  { pose proof (parse_loop_spec resp ∅ ∅) as H. cbn zeta in H.
    unfold parse, blank_message. cbn [headers multiheaders].
    destruct (parse_loop resp ∅ ∅) as [[h mh] d]. destruct H as (_ & Hh & Hmh).
    cbn [headers multiheaders]. split.
    - intros k. rewrite Hh, Hmh, !lookup_empty.
      destruct (values_of k _) as [|v vs]; [done|]. cbn [from_option id app mbind option_bind].
      by destruct (last (v :: vs)).
    - intros k vs. rewrite Hmh, lookup_empty.
      destruct (values_of k _) as [|v vs']; [done|]. by intros [= <-]. }
  rewrite init_ladder. cbn zeta. set (p := parse (blank_message resp) resp) in *.
  assert (∀ k v, ∀ j vs, multiheaders (with_generated k v p) !! j = Some vs → vs ≠ [])
    as Hgen.
  { intros k v j vs. cbn [with_generated multiheaders].
    destruct (decide (k = j)) as [->|Hne].
    - rewrite lookup_insert_eq. by intros [= <-].
    - rewrite lookup_insert_ne by done. apply Hp2. }
  destruct (has_header (headers p) "Event" || has_header (headers p) "Response");
    [done|].
  destruct (has_header (headers p) "ActionID"); [|destruct (contains _ _)];
    (split; [by apply with_generated_agree|apply Hgen]).
Qed.

(** ** Uniqueness of ActionIDs *)

Lemma append_inj_l (s t t' : string) : s +:+ t = s +:+ t' → t = t'.
Proof.
  induction s as [|a s IH]; [done|]. rewrite !append_cons. intros [= H]. by apply IH.
Qed.

Lemma read_hex_fill k s : read_hex (fill "0" k +:+ s) = read_hex s.
Proof.
  induction k as [|k IH]; [done|]. cbn [fill]. rewrite append_cons.
  unfold read_hex in *. cbn [HexadecimalString.NilEmpty.uint_of_string].
  destruct (HexadecimalString.NilEmpty.uint_of_string (fill "0" k +:+ s)) as [d|];
    destruct (HexadecimalString.NilEmpty.uint_of_string s) as [d'|]; cbn in *;
    try done. 
Qed.

Lemma read_hex_of_N n : read_hex (hex_of_N n) = Some n.
Proof.
  unfold read_hex, hex_of_N.
  assert (N.to_hex_uint n ≠ Hexadecimal.Nil) as Hne.
  { destruct n as [|p]; [done|]. cbn. 
    intros H. pose proof (HexadecimalPos.Unsigned.to_uint_nonnil p). done. }
  assert (HexadecimalString.NilEmpty.uint_of_string
            (HexadecimalString.NilZero.string_of_uint (N.to_hex_uint n))
          = Some (N.to_hex_uint n)) as ->.
  { pose proof (HexadecimalString.NilZero.usu (N.to_hex_uint n) Hne) as H.
    unfold HexadecimalString.NilZero.uint_of_string in H.
    by destruct (HexadecimalString.NilZero.string_of_uint (N.to_hex_uint n)). }
  cbn. by rewrite HexadecimalN.Unsigned.of_to.
Qed.

Lemma read_hex_field n : read_hex (rjust "0" 8 (hex_of_N n)) = Some n.
Proof. unfold rjust. by rewrite read_hex_fill, read_hex_of_N. Qed.

(** X17: for one host name and process id, different values of the
    counter give different ActionIDs. *)
Theorem action_ids_differ (host : string) (p n n' : N) :
  n ≠ n' → format_ActionID host p n ≠ format_ActionID host p n'.
Proof.
  unfold format_ActionID. intros Hne H.
  do 4 apply append_inj_l in H.
  apply (f_equal read_hex) in H. rewrite !read_hex_field in H. by injection H.
Qed.

(** ** Connecting and logging in *)

Lemma banner_pass self sk loc line rest :
  _sock self = Some sk →
  incoming sk = RLine line :: rest →
  truthy (title self) = false →
  is_connected self = true →
  contains "/" line = true →
  contains ":" line = false →
  _receive_data_pass self loc
  = Some (put_message (obj ["Response: Generated Header" +:+ EOL; line])
            (set_sock (Some (mkSocketFile rest (written sk) (closed sk) (write_error sk)))
               (set_greeting (Some (strip (before "/" line)))
                             (Some (strip (before "/" (after "/" line)))) self)),
          mkLocals ["Response: Generated Header" +:+ EOL; line]
                   (multiline loc) (wait_for_marker loc)).
Proof.
  intros Hsock Hin Ht Hc Hslash Hcolon.
  unfold _receive_data_pass. rewrite Hsock, Hin. cbn [for_line_in_sock].
  rewrite Ht, Hslash, Hcolon. cbn [negb andb lines app multiline wait_for_marker].
  rewrite split_head, split_second.
  rewrite bool_decide_eq_false_2 by done. cbn [negb].
  unfold is_connected in *. cbn. by rewrite Hc.
Qed.

Lemma banner_message line :
  contains ":" line = false →
  ManagerMessage_init ["Response: Generated Header" +:+ EOL; line]
  = {| response := ["Response: Generated Header" +:+ EOL; line];
       data := line;
       headers := {["Response" := "Generated Header"]};
       multiheaders := {["Response" := ["Generated Header"]]} |}.
Proof.
  intros Hcolon.
  assert (is_header_line line = false) as Hline.
  { unfold is_header_line. rewrite Hcolon. apply andb_false_r. }
  rewrite init_ladder. cbn zeta.
  assert (parse (blank_message ["Response: Generated Header" +:+ EOL; line])
                ["Response: Generated Header" +:+ EOL; line]
          = {| response := ["Response: Generated Header" +:+ EOL; line];
               data := line;
               headers := {["Response" := "Generated Header"]};
               multiheaders := {["Response" := ["Generated Header"]]} |}) as ->.
  { unfold parse, blank_message. cbn [headers multiheaders response].
    rewrite parse_loop_header by reflexivity. rewrite parse_loop_stop by done.
    reflexivity. }
  cbn [headers]. unfold has_header.
  rewrite lookup_singleton_eq, lookup_singleton_ne by done. done.
Qed.

(** X15: from [connect] to its return value.  On a session that was
    never connected, when the server's first line is a banner,
    [connect] opens the session and waits; one pass of
    [_receive_data] and one of [message_loop] later it returns the
    generated response whose body is the banner line, and the
    session is connected and running with its title set and its
    queues empty. *)
Theorem connect_receives_banner
    (network : string → Z → (Z * string) + SocketFile)
    (self : Manager) (host : string) (port : Z) (sk : SocketFile)
    (line : string) (rest : list sock_read) :
  is_connected self = false →
  threads_started self = false →
  truthy (title self) = false →
  _message_queue self = [] →
  _response_queue self = [] →
  network host port = inr sk →
  incoming sk = RLine line :: rest →
  contains "/" line = true →
  contains ":" line = false →
  ∃ self1 self2 loc2 self3 self4 msg,
    connect network self host port = (self1, Blocked)
    ∧ _receive_data_pass self1 (mkLocals [] false false) = Some (self2, loc2)
    ∧ message_loop_body self2 = (self3, Continue)
    ∧ connect_wait self3 = (self4, Return msg)
    ∧ headers msg = {["Response" := "Generated Header"]}
    ∧ data msg = line
    ∧ is_connected self4 = true
    ∧ is_running self4 = true
    ∧ title self4 = Some (strip (before "/" line))
    ∧ _message_queue self4 = []
    ∧ _response_queue self4 = []
    ∧ _event_queue self4 = _event_queue self.
Proof.
  intros Hc Hts Ht Hmq Hrq Hnet Hin Hslash Hcolon.
  set (self1 := set_threads_started true
                  (set_running true (set_connected true (set_sock (Some sk) self)))).
  assert (connect network self host port = (self1, Blocked)) as H1.
  { unfold connect, connect_enter. rewrite Hc, Hnet. cbn. rewrite Hts.
    unfold connect_wait. cbn. by rewrite Hrq. }
  pose proof (banner_pass self1 sk (mkLocals [] false false) line rest
                eq_refl Hin Ht eq_refl Hslash Hcolon) as H2.
  match type of H2 with _ = Some (?s, ?l) => set (self2 := s) in *; set (loc2 := l) in * end.
  pose proof (banner_message line Hcolon) as Hmsg.
  set (msg := ManagerMessage_init ["Response: Generated Header" +:+ EOL; line]) in *.
  assert (message_loop_body self2
          = (put_response (obj msg) (set_message_queue [] self2), Continue)) as H3.
  { unfold message_loop_body. subst self2 self1. cbn. rewrite Hmq. cbn. fold msg.
    rewrite Hmsg. cbn [headers]. unfold has_header.
    rewrite lookup_singleton_eq, lookup_singleton_ne by done. done. }
  exists self1, self2, loc2, (put_response (obj msg) (set_message_queue [] self2)),
         (set_response_queue [] (put_response (obj msg) (set_message_queue [] self2))),
         msg.
  split; [done|]. split; [done|]. split; [done|]. split.
  { unfold connect_wait. subst self2 self1. cbn. by rewrite Hrq. }
  rewrite Hmsg. cbn [headers data]. repeat split; done.
Qed.

(** X16: [login] on a working connection sends [Action: Login] with
    the user name, the secret and a generated [ActionID], and reads
    the next response: when its [Response] header is [Error] it
    raises [ManagerAuthException] with the [Message] header of the
    response ([None] without one), otherwise it returns the
    response; in both cases the session stays connected. *)
Theorem login_reads_the_response (self : Manager) (sk : SocketFile) (st : store)
    (username secret : string) (msg : ManagerMessage)
    (q : list (item ManagerMessage)) :
  is_connected self = true →
  _sock self = Some sk →
  closed sk = false →
  write_error sk = None →
  _response_queue self = obj msg :: q →
  let r := login self st username secret in
  r.2 = (if bool_decide (headers msg !! "Response" = Some "Error")
         then LoginAuthError (headers msg !! "Message")
         else LoginReturn msg)
  ∧ is_connected r.1.1 = true
  ∧ _response_queue r.1.1 = q
  ∧ _response_waiters r.1.1 = _response_waiters self
  ∧ _seq r.1.1 = (_seq self + 1)%N
  ∧ _sock r.1.1
    = Some (mkSocketFile (incoming sk)
              (written sk
               ++ [join ((λ l, l +:+ EOL) <$>
                           ["Action: Login"; "Username: " +:+ username;
                            "Secret: " +:+ secret;
                            "ActionID: " +:+ format_ActionID (hostname self) (pid self)
                                                             (_seq self)])
                   +:+ EOL])
              false None).
Proof.
  intros Hc Hsock Hcl Hwe Hq. cbn zeta. unfold login, send_action.
  rewrite (send_action_enter_ok self sk _ _ _ Hc Hsock Hcl Hwe).
  assert (cdict_or_new
            (st ++ [[("Action", VStr "Login"); ("Username", VStr username);
                     ("Secret", VStr secret)]]) (Some (length st))
          = (st ++ [[("Action", VStr "Login"); ("Username", VStr username);
                     ("Secret", VStr secret)]], length st)) as ->.
  { apply (cdict_or_new_nonempty _ _ [("Action", VStr "Login");
             ("Username", VStr username); ("Secret", VStr secret)]); [|done].
    by rewrite lookup_app_r, Nat.sub_diag. }
  cbn [fst snd]. unfold deref. rewrite lookup_app_r, Nat.sub_diag by done.
  cbn [lookup list_lookup from_option id dict_update foldl].
  change (dict_has "ActionID" _) with false. cbn [negb].
  rewrite join_with_lines.
  unfold send_action_wait. cbn [_response_queue set_response_waiters set_sock set_seq].
  rewrite Hq. unfold get_header.
  destruct (bool_decide (headers msg !! "Response" = Some "Error")); cbn;
    unfold is_connected in Hc; rewrite Hc; done.
Qed.

(** ** Instances of the statements above *)

Lemma receive_data_ends_with_sentinel_witness :
  is_running (fresh_session (banner :: success_lines ++ [EOL])) = true
  ∧ is_connected (fresh_session (banner :: success_lines ++ [EOL])) = true
  ∧ ∃ self',
      _receive_data 5 (fresh_session (banner :: success_lines ++ [EOL])) = Some self'
      ∧ is_connected self' = false
      ∧ last (_message_queue self') = Some sentinel.
Proof.
  split; [reflexivity|]. split; [reflexivity|].
  destruct (receive_data_ends_with_sentinel
              (fresh_session (banner :: success_lines ++ [EOL]))
              (socket_with (banner :: success_lines ++ [EOL])) 5
              eq_refl eq_refl eq_refl)
    as (groups & self' & Hrun & Hc & _ & _ & Hq & _).
  - vm_compute. lia.
  - exists self'. split; [exact Hrun|]. split; [exact Hc|].
    rewrite Hq, app_assoc. apply last_snoc.
Defined.

Lemma ordinary_group_framed_witness :
  _receive_data_pass (greeted_session (EOL :: success_lines ++ [EOL]))
                     (mkLocals [] false false)
  = Some (put_message (obj success_lines)
            (set_sock (Some (socket_with []))
                      (greeted_session (EOL :: success_lines ++ [EOL]))),
          mkLocals success_lines false false)
  ∧ data (ManagerMessage_init success_lines) = join (body_lines success_lines).
Proof.
  apply (ordinary_group_framed (greeted_session (EOL :: success_lines ++ [EOL]))
           (socket_with (EOL :: success_lines ++ [EOL])) (mkLocals [] false false)
           1 success_lines []); try reflexivity.
  - discriminate.
  - repeat constructor.
Defined.

Lemma truncated_group_dropped_witness :
  ∃ self' loc',
    _receive_data_pass (greeted_session success_lines) (mkLocals [] false false)
    = Some (self', loc')
    ∧ is_connected self' = false
    ∧ _message_queue self' = [sentinel]
    ∧ lines loc' = success_lines.
Proof.
  destruct (truncated_group_dropped (greeted_session success_lines)
              (socket_with success_lines) (mkLocals [] false false) success_lines
              eq_refl eq_refl eq_refl eq_refl)
    as (loc' & Hpass & Hl).
  - discriminate.
  - repeat constructor.
  - eexists _, loc'. split; [exact Hpass|]. split; [reflexivity|].
    split; [reflexivity|exact Hl].
Defined.

Lemma message_loop_routes_in_order_witness :
  is_running routed_session = true
  ∧ (message_loop 3 routed_session).2 = Waiting
  ∧ _event_queue (message_loop 3 routed_session).1
    = [obj (to_event (ManagerMessage_init ["Event: Hangup" +:+ EOL]))]
  ∧ _response_queue (message_loop 3 routed_session).1
    = [obj (ManagerMessage_init ["Response: Pong" +:+ EOL])].
Proof.
  split; [reflexivity|].
  destruct (message_loop_routes_in_order routed_session routed_groups 3
              eq_refl eq_refl) as [-> _].
  - cbn. lia.
  - repeat split; reflexivity.
Defined.

Lemma shutdown_reaches_every_waiter_witness :
  is_running closing_session = true
  ∧ ∃ self1 self2,
      message_loop 1 closing_session = (self1, Done)
      ∧ resume_waiters 2 self1
        = (self2, [Raise (ManagerSocketException 0 "Connection Terminated");
                   Raise (ManagerSocketException 0 "Connection Terminated")])
      ∧ _response_waiters self2 = []
      ∧ (event_dispatch only_2_stops 1 (self2, ())).2 = Done.
Proof.
  split; [reflexivity|].
  destruct (shutdown_reaches_every_waiter only_2_stops closing_session () [] 0 0
              eq_refl eq_refl eq_refl eq_refl)
    as (self1 & self2 & H1 & H2 & _ & H3 & H4).
  exists self1, self2. split; [exact H1|]. split; [exact H2|]. split; [exact H3|].
  by rewrite H4.
Defined.

Lemma send_action_exchange_witness :
  let r := send_action answered_session [] None ping_kwargs in
  is_connected answered_session = true
  ∧ r.2 = Return (ManagerMessage_init ["Response: Pong" +:+ EOL])
  ∧ _sock r.1.1
    = Some (mkSocketFile [] ["Action: Ping" +:+ EOL +:+ "ActionID: pbx-4242-00000000"
                             +:+ EOL +:+ EOL] false None).
Proof.
  cbn zeta. split; [reflexivity|].
  destruct (send_action_exchange answered_session (socket_with []) [] None ping_kwargs
              eq_refl eq_refl eq_refl eq_refl) as (Hs & Hr & _).
  split; [exact Hr|]. rewrite Hs. reflexivity.
Defined.


Lemma send_action_not_connected_witness :
  let r := send_action (Manager_init "pbx" 4242) [ping_kwargs] (Some 0) [] in
  is_connected (Manager_init "pbx" 4242) = false
  ∧ r.2 = Raise (ManagerException "Not connected")
  ∧ r.1.2 !! 0 = Some ping_kwargs.
Proof.
  cbn zeta. split; [reflexivity|].
  destruct (send_action_not_connected (Manager_init "pbx" 4242) [ping_kwargs]
              (Some 0) [] eq_refl) as (Hr & _ & Hst).
  split; [exact Hr|]. by apply Hst.
Defined.

Lemma send_action_twice_in_order_witness :
  let r1 := send_action twice_answered_session [] None ping_kwargs in
  let r2 := send_action r1.1.1 r1.1.2 None ping_kwargs in
  is_connected twice_answered_session = true
  ∧ r1.2 = Return (ManagerMessage_init ["Response: Pong" +:+ EOL])
  ∧ r2.2 = Return (ManagerMessage_init ["Response: Success" +:+ EOL]).
Proof.
  cbn zeta. split; [reflexivity|].
  destruct (send_action_twice_in_order twice_answered_session (socket_with []) []
              None ping_kwargs None ping_kwargs
              (ManagerMessage_init ["Response: Pong" +:+ EOL])
              (ManagerMessage_init ["Response: Success" +:+ EOL]) []
              eq_refl eq_refl eq_refl eq_refl eq_refl) as (H1 & H2 & _).
  split; [exact H1|exact H2].
Defined.

Lemma request_lines_parse_back_witness :
  let resp := (λ l, l +:+ EOL) <$> command_lines originate_fields in
  resp = ["Action: Originate" +:+ EOL; "Variable: var1=value" +:+ EOL;
          "Variable: var2=value" +:+ EOL]
  ∧ multiheaders (parse (blank_message resp) resp) !! "Variable"
    = Some ["var1=value"; "var2=value"]
  ∧ headers (parse (blank_message resp) resp) !! "Variable" = Some "var2=value".
Proof.
  cbn zeta. split; [reflexivity|].
  destruct (request_lines_parse_back originate_fields) as (_ & Hh & Hm).
  - repeat constructor.
  - split; [apply Hm|apply Hh].
Defined.

Lemma unregister_unknown_raises_witness :
  unregister_event "Hangup" 1 (greeted_session [])
  = (greeted_session [], Raise (BuiltinError "ValueError")).
Proof.
  apply unregister_unknown_raises. cbn. apply not_elem_of_nil.
Defined.

Lemma unregister_removes_first_witness :
  _event_callbacks hangup_session !! "Hangup" = Some [1; 2; 3]
  ∧ _event_callbacks (unregister_event "Hangup" 2 hangup_session).1 !! "Hangup"
    = Some [1; 3].
Proof.
  split; [reflexivity|].
  destruct (unregister_removes_first hangup_session "Hangup" 2 [1] [3] eq_refl)
    as (_ & H & _).
  - intros H. apply elem_of_cons in H as [H|H]; [discriminate H|].
    by apply elem_of_nil in H.
  - exact H.
Defined.

Lemma register_then_unregister_witness :
  (unregister_event "Hangup" 7 (register_event "Hangup" 7 hangup_session)).2 = Return ()
  ∧ callbacks_for
      (unregister_event "Hangup" 7 (register_event "Hangup" 7 hangup_session)).1
      hangup_event
    = [1; 2; 3; 4].
Proof.
  destruct (register_then_unregister hangup_session "Hangup" 7 hangup_event)
    as [H1 H2].
  - change (7 ∉ [1; 2; 3]). intros H. 
    repeat (apply elem_of_cons in H as [H|H]; [discriminate H|]).
    by apply elem_of_nil in H.
  - split; [exact H1|]. rewrite H2. reflexivity.
Defined.

Lemma connect_receives_banner_witness :
  is_connected (Manager_init "pbx" 4242) = false
  ∧ ∃ self1 self2 loc2 self3 self4 msg,
      connect banner_network (Manager_init "pbx" 4242) "pbx" 5038 = (self1, Blocked)
      ∧ _receive_data_pass self1 (mkLocals [] false false) = Some (self2, loc2)
      ∧ message_loop_body self2 = (self3, Continue)
      ∧ connect_wait self3 = (self4, Return msg)
      ∧ data msg = banner
      ∧ title self4 = Some "Asterisk Call Manager".
Proof.
  split; [reflexivity|].
  destruct (connect_receives_banner banner_network (Manager_init "pbx" 4242) "pbx"
              5038 (socket_with [banner]) banner []
              eq_refl eq_refl eq_refl eq_refl eq_refl eq_refl eq_refl eq_refl eq_refl)
    as (s1 & s2 & l2 & s3 & s4 & msg & H1 & H2 & H3 & H4 & _ & Hd & _ & _ & Ht & _).
  exists s1, s2, l2, s3, s4, msg. repeat split; done.
Defined.

Lemma login_reads_the_response_witness :
  let rejected := put_response
                    (obj (ManagerMessage_init
                            ["Response: Error" +:+ EOL;
                             "Message: Authentication failed" +:+ EOL]))
                    (greeted_session []) in
  is_connected rejected = true
  ∧ (login rejected [] "admin" "wrong").2
    = LoginAuthError (Some "Authentication failed")
  ∧ is_connected (login rejected [] "admin" "wrong").1.1 = true.
Proof.
  cbn zeta. split; [reflexivity|].
  destruct (login_reads_the_response
              (put_response
                 (obj (ManagerMessage_init
                         ["Response: Error" +:+ EOL;
                          "Message: Authentication failed" +:+ EOL]))
                 (greeted_session []))
              (socket_with []) [] "admin" "wrong"
              (ManagerMessage_init ["Response: Error" +:+ EOL;
                                    "Message: Authentication failed" +:+ EOL]) []
              eq_refl eq_refl eq_refl eq_refl eq_refl) as (Hr & Hc & _).
  split; [rewrite Hr; reflexivity|exact Hc].
Defined.

Lemma action_ids_differ_witness :
  format_ActionID "pbx" 4242 9 ≠ format_ActionID "pbx" 4242 10.
Proof. apply action_ids_differ. discriminate. Defined.

(** ** Command output without its end marker *)

(** X18: command output whose end marker never comes.  After
    [Response: Follows], as long as no line begins with
    [--END COMMAND--], blank lines do not end the group: every line
    up to the end of the stream is collected, and at the end of the
    stream none of them is delivered; the session is marked not
    connected and the message queue receives the sentinel. *)
Theorem follows_without_marker_loses_all (self : Manager) (sk : SocketFile)
    (loc : locals) (mid : list string) :
  _sock self = Some sk →
  incoming sk = RLine RESPONSE_FOLLOWS :: (RLine <$> mid) →
  is_connected self = true →
  truthy (title self) = true →
  multiline loc = false →
  Forall (λ l, startswith l END_COMMAND = false) mid →
  ∃ loc',
    _receive_data_pass self loc
    = Some (put_error "Received lines but are not connected"
              (put_message sentinel
                 (set_connected false
                    (set_sock (Some (mkSocketFile [] (written sk) true (write_error sk)))
                       self))),
            loc')
    ∧ lines loc' = RESPONSE_FOLLOWS :: mid
    ∧ wait_for_marker loc' = true.
Proof.
  intros Hsock Hin Hc Ht Hm Hall.
  unfold _receive_data_pass. rewrite Hsock, Hin.
  rewrite for_line_plain; [|done|done|reflexivity].
  rewrite accumulate_follows by done. cbn [lines app].
  rewrite <- (app_nil_r (RLine <$> mid)).
  rewrite for_line_waiting by done. cbn [for_line_in_sock lines app].
  rewrite bool_decide_eq_false_2 by done. cbn [negb].
  eexists. split.
  - cbn. reflexivity.
  - split; reflexivity.
Qed.

Lemma follows_without_marker_loses_all_witness :
  ∃ self' loc',
    _receive_data_pass
      (greeted_session (RESPONSE_FOLLOWS :: follows_middle ++ ["Response: Pong" +:+ EOL; EOL]))
      (mkLocals [] false false)
    = Some (self', loc')
    ∧ _message_queue self' = [sentinel]
    ∧ is_connected self' = false.
Proof.
  destruct (follows_without_marker_loses_all
              (greeted_session
                 (RESPONSE_FOLLOWS :: follows_middle ++ ["Response: Pong" +:+ EOL; EOL]))
              (socket_with
                 (RESPONSE_FOLLOWS :: follows_middle ++ ["Response: Pong" +:+ EOL; EOL]))
              (mkLocals [] false false)
              (follows_middle ++ ["Response: Pong" +:+ EOL; EOL])
              eq_refl eq_refl eq_refl eq_refl eq_refl)
    as (loc' & Hpass & _).
  - repeat constructor.
  - eexists _, loc'. split; [exact Hpass|]. split; reflexivity.
Defined.
